(** * cobra.io.sbmlnew: reading and writing SBML/FBC models

    A shallow embedding of [src/cobra/io/sbmlnew.py].  Python statements are
    embedded in a small monad that threads the list of emitted warnings and
    carries raised exceptions.  Objects of the libsbml toolkit are records
    holding what the accessors used by the source return; the classes of
    [cobra.core] are records holding the attributes the source assigns.
    Numbers are binary64 floats, as Python's [float]. *)

From Stdlib Require Import Floats ZArith String Ascii List.
From stdpp Require Import gmap strings list fin_maps pretty.

Set Warnings "-register-all".

Local Open Scope list_scope.
Local Open Scope string_scope.

(** ** Python strings *)

(** [s[n:]] *)
Fixpoint str_drop (n : nat) (s : string) : string :=
  match n, s with
  | O, _ => s
  | S n', String _ s' => str_drop n' s'
  | S _, EmptyString => EmptyString
  end.

(** [s.startswith(p)] *)
Definition startswith (s p : string) : bool := String.prefix p s.

(** [s.endswith(p)] *)
Definition endswith (s p : string) : bool :=
  String.eqb (str_drop (String.length s - String.length p) s) p
  && (String.length p <=? String.length s)%nat.

(** [s.split(c, 1)]: [None] when [c] does not occur in [s] (the result then
    has the single element [s]), otherwise the parts before and after the
    first occurrence. *)
Fixpoint split_once (c : ascii) (s : string) : option (string * string) :=
  match s with
  | EmptyString => None
  | String a s' =>
      if Ascii.eqb a c then Some (EmptyString, s')
      else match split_once c s' with
           | Some (h, t) => Some (String a h, t)
           | None => None
           end
  end.

(** [s.strip()] for the blank characters that can surround a rule. *)
Definition is_space (a : ascii) : bool :=
  match a with
  | " "%char | "009"%char | "010"%char | "011"%char | "012"%char | "013"%char => true
  | _ => false
  end.

Fixpoint lstrip (s : string) : string :=
  match s with
  | String a s' => if is_space a then lstrip s' else s
  | EmptyString => EmptyString
  end.

Fixpoint str_rev_onto (s acc : string) : string :=
  match s with
  | EmptyString => acc
  | String a s' => str_rev_onto s' (String a acc)
  end.

Definition str_rev (s : string) : string := str_rev_onto s EmptyString.

Definition strip (s : string) : string :=
  str_rev (lstrip (str_rev (lstrip s))).

(** [s[1:-1]] *)
Definition str_inner (s : string) : string :=
  substring 1 (String.length s - 2) s.

(** The double-quote character, as a one-character string *)
Definition dquote : string := String "034"%char EmptyString.

(** ** The libsbml toolkit: the document tree the source walks

    libsbml is an external library.  Each class is a record of what the
    accessors called by the source return; an accessor that can return
    [None] has an [option] type. *)

Module libsbml.

(** [CVTerm]: [getNumResources()] and [getResourceURI(k)] enumerate
    [cv_resources]. *)
Record CVTerm : Type := { cv_resources : list string }.

(** What every SBML element offers: [str(x)], [x.id], [x.name],
    [isSetSBOTerm()] with [getSBOTerm()] ([Some t] when set) and
    [getCVTerms()]. *)
Record SBase : Type := {
  sb_str : string;
  sb_id : option string;
  sb_name : option string;
  sb_sboTerm : option Z;
  sb_cvterms : option (list CVTerm)
}.

Record Compartment : Type := { c_base : SBase }.

Record FbcSpeciesPlugin : Type := {
  sp_charge : Z;
  sp_chemicalFormula : string
}.

Record Species : Type := {
  s_base : SBase;
  s_compartment : string;
  s_fbc : option FbcSpeciesPlugin;
  s_boundaryCondition : bool
}.

Record GeneProduct : Type := { gp_base : SBase }.

(** The class [libsbml.Parameter]. *)
Record SBMLParameter : Type := {
  p_base : SBase;
  p_constant : bool;
  p_value : option float
}.

Record SpeciesReference : Type := {
  sr_base : SBase;
  sr_species : string;
  sr_stoichiometry : option float
}.

(** [FbcAssociation]: a gene product reference, or an AND / OR of
    associations. *)
Inductive FbcAssociation : Type :=
| GeneProductRef (geneProduct : string)
| FbcAnd (children : list FbcAssociation)
| FbcOr (children : list FbcAssociation).

Record GeneProductAssociation : Type := {
  gpa_association : option FbcAssociation
}.

Record FbcReactionPlugin : Type := {
  rp_str : string;
  rp_lowerFluxBound : option string;
  rp_upperFluxBound : option string;
  rp_geneProductAssociation : option GeneProductAssociation
}.

Record Reaction : Type := {
  r_base : SBase;
  r_fbc : option FbcReactionPlugin;
  r_reactants : list SpeciesReference;
  r_products : list SpeciesReference
}.

Record FluxObjective : Type := {
  fo_reaction : string;
  fo_coefficient : float
}.

Record Objective : Type := {
  o_id : string;
  o_type : string;
  o_fluxObjectives : list FluxObjective
}.

Record ListOfObjectives : Type := {
  lo_activeObjective : string;
  lo_objectives : list Objective
}.

(** [mp_strict] is [Some b] when [isSetStrict()]. *)
Record FbcModelPlugin : Type := {
  mp_strict : option bool;
  mp_geneProducts : list GeneProduct;
  mp_listOfObjectives : option ListOfObjectives
}.

Record Model : Type := {
  m_base : SBase;
  m_compartments : list Compartment;
  m_species : list Species;
  m_parameters : list SBMLParameter;
  m_reactions : list Reaction;
  m_fbc : option FbcModelPlugin
}.

Record SBMLDocument : Type := {
  d_sboTerm : option Z;
  d_fbc_required : option bool;
  d_model : option Model
}.

(** [model.getParameter(sid)]: the first parameter with that id, [None]
    when there is none. *)
Definition getParameter (m : Model) (sid : string) : option SBMLParameter :=
  List.find (fun p => bool_decide (sb_id (p_base p) = Some sid)) (m_parameters m).

(** [model_fbc.getObjective(sid)] *)
Definition getObjective (lo : ListOfObjectives) (sid : string) : option Objective :=
  List.find (fun o => String.eqb (o_id o) sid) (lo_objectives lo).

(** An element that carries nothing but an id. *)
Definition sbase_of_id (sid : string) : SBase :=
  {| sb_str := sid; sb_id := Some sid; sb_name := Some "";
     sb_sboTerm := None; sb_cvterms := Some [] |}.

End libsbml.

(** ** Python: exceptions, warnings, control flow *)

Module Py.

(** The exception classes that occur in the source or are raised by the
    constructs it uses.  [CobraSBMLError] is the class declared on lines
    65-67.  All of them derive from [Exception], except the last two:
    [KeyboardInterrupt] and [SystemExit] derive from [BaseException] only,
    and can be raised while any call is running. *)
Inductive exn : Type :=
| CobraSBMLError (msg : string)
| NameError (name : string)
| AttributeError (msg : string)
| KeyError (key : string)
| ValueError (msg : string)
| TypeError (msg : string)
| AssertionError
| OtherException (cls msg : string)
| KeyboardInterrupt
| SystemExit (code : Z).

Inductive outcome (A : Type) : Type :=
| Return (a : A)
| Raise (e : exn).
Arguments Return {A} a.
Arguments Raise {A} e.

(** What a computation can change outside its result: the warnings emitted
    so far and the files written so far, each with the document written. *)
Record world : Type := {
  warnings : list string;
  files : list (string * libsbml.SBMLDocument)
}.

Definition M (A : Type) : Type := world -> outcome A * world.

Definition ret {A} (a : A) : M A := fun w => (Return a, w).

Definition bind {A B} (m : M A) (k : A -> M B) : M B :=
  fun w => match m w with
           | (Return a, w') => k a w'
           | (Raise e, w') => (Raise e, w')
           end.

Definition raise {A} (e : exn) : M A := fun w => (Raise e, w).

(** [warnings.warn(msg)] under the default filter: the message is recorded
    and execution goes on. *)
Definition warn (msg : string) : M unit :=
  fun w => (Return tt, {| warnings := (warnings w ++ [msg])%list; files := files w |}).

(** [try: body  except <classes>: handler].  Warnings emitted by the body
    before it raised stay emitted. *)
Definition try_except {A} (body : M A) (catches : exn -> bool)
    (handler : exn -> M A) : M A :=
  fun w => match body w with
           | (Return a, w') => (Return a, w')
           | (Raise e, w') => if catches e then handler e w' else (Raise e, w')
           end.

Definition is_KeyError (e : exn) : bool :=
  match e with KeyError _ => true | _ => false end.

Definition is_ValueError (e : exn) : bool :=
  match e with ValueError _ => true | _ => false end.

(** [except Exception]: the classes that derive from [Exception]. *)
Definition is_Exception (e : exn) : bool :=
  match e with
  | KeyboardInterrupt | SystemExit _ => false
  | _ => true
  end.

(** [str(e)] *)
Definition str_exn (e : exn) : string :=
  match e with
  | CobraSBMLError m | AttributeError m | ValueError m | TypeError m => m
  | NameError n => "name '" ++ n ++ "' is not defined"
  | KeyError k => "'" ++ k ++ "'"
  | AssertionError | KeyboardInterrupt => ""
  | OtherException _ m => m
  | SystemExit code => pretty code
  end.

(** [for x in l: s = body(x, s)], stopping at the first exception. *)
Fixpoint for_each {A S} (l : list A) (body : A -> S -> M S) (s : S) : M S :=
  match l with
  | [] => ret s
  | x :: l' => bind (body x s) (for_each l' body)
  end.

(** Running a computation when nothing has been warned or written yet. *)
Definition world0 : world := {| warnings := []; files := [] |}.

Definition run {A} (m : M A) : outcome A * world := m world0.

End Py.

Import Py.

Notation "x <- m ;; k" := (Py.bind m (fun x => k))
  (at level 100, m at next level, right associativity).
Notation "m ;;; k" := (Py.bind m (fun _ => k))
  (at level 100, right associativity).

(** ** cobra.core: the model the reader builds *)

Module cobra.

(** A value of an [annotation] dictionary: the integer SBO term, one
    identifier, or the list of identifiers of a provider seen more than
    once. *)
Inductive annotation_value : Type :=
| AInt (z : Z)
| AStr (s : string)
| AList (l : list string).

(** Modelled from the spec: the class [cobra.core.Metabolite] is not under
    src/; a metabolite is the record of the attributes the reader assigns
    (the "metabolites/species" entity of the data model).  [Metabolite(sid)]
    starts with no charge, no formula and an empty annotation. *)
Record Metabolite : Type := {
  met_id : string;
  met_name : option string;
  met_compartment : option string;
  met_charge : option Z;
  met_formula : option string;
  met_annotation : gmap string annotation_value
}.

Definition new_Metabolite (sid : string) : Metabolite :=
  {| met_id := sid; met_name := Some ""; met_compartment := None;
     met_charge := None; met_formula := None; met_annotation := ∅ |}.

(** Modelled from the spec: the class [cobra.core.Gene] is not under src/;
    a gene is its id, name and annotation. *)
Record Gene : Type := {
  gene_id : option string;
  gene_name : option string;
  gene_annotation : gmap string annotation_value
}.

Definition new_Gene (gid : option string) : Gene :=
  {| gene_id := gid; gene_name := Some ""; gene_annotation := ∅ |}.

(** Modelled from the spec: the class [cobra.core.Reaction] is not under
    src/; a reaction is the record of the attributes the reader assigns.
    The stoichiometry is a dictionary keyed by the metabolites of the model,
    which their ids identify; it is kept in insertion order.
    [Reaction(rid)] starts with bounds 0 and 1000, no metabolite and an
    empty rule. *)
Record Reaction : Type := {
  rxn_id : string;
  rxn_name : option string;
  rxn_annotation : gmap string annotation_value;
  rxn_lower_bound : float;
  rxn_upper_bound : float;
  rxn_metabolites : list (string * float);
  rxn_gene_reaction_rule : string
}.

Definition new_Reaction (rid : string) : Reaction :=
  {| rxn_id := rid; rxn_name := Some ""; rxn_annotation := ∅;
     rxn_lower_bound := 0; rxn_upper_bound := 1000;
     rxn_metabolites := []; rxn_gene_reaction_rule := "" |}.

(** Modelled from the spec: the class [cobra.core.Model] is not under src/;
    a model holds "compartments, metabolites/species, genes, reactions,
    objective".  The objective is the dictionary of coefficients handed to
    [set_objective], keyed by reaction id, with the direction of
    [solver.objective.direction]. *)
Record Model : Type := {
  mdl_id : option string;
  mdl_name : option string;
  mdl_compartments : gmap (option string) (option string);
  mdl_metabolites : list Metabolite;
  mdl_genes : list Gene;
  mdl_reactions : list Reaction;
  mdl_objective : list (string * float);
  mdl_direction : string
}.

Definition new_Model (mid : option string) : Model :=
  {| mdl_id := mid; mdl_name := None; mdl_compartments := ∅;
     mdl_metabolites := []; mdl_genes := []; mdl_reactions := [];
     mdl_objective := []; mdl_direction := "max" |}.

(** Modelled from the spec: [DictList.get_by_id] of [cobra.core] is not
    under src/; it gives the entry with the id and raises [KeyError] when
    there is none, the exception both call sites of the source catch. *)
Definition metabolites_get_by_id (m : Model) (sid : string) : Py.M Metabolite :=
  match List.find (fun x => String.eqb (met_id x) sid) (mdl_metabolites m) with
  | Some x => Py.ret x
  | None => Py.raise (Py.KeyError sid)
  end.

Definition reactions_get_by_id (m : Model) (rid : string) : Py.M Reaction :=
  match List.find (fun x => String.eqb (rxn_id x) rid) (mdl_reactions m) with
  | Some x => Py.ret x
  | None => Py.raise (Py.KeyError rid)
  end.

(** Modelled from the spec: [Model.add_metabolites] of [cobra.core] is not
    under src/; a metabolite whose id the model already has is left out,
    the others are appended. *)
Definition add_metabolites (m : Model) (mets : list Metabolite) : Model :=
  fold_left
    (fun acc x =>
       if existsb (fun y => String.eqb (met_id y) (met_id x)) (mdl_metabolites acc)
       then acc
       else {| mdl_id := mdl_id acc; mdl_name := mdl_name acc;
               mdl_compartments := mdl_compartments acc;
               mdl_metabolites := (mdl_metabolites acc ++ [x])%list;
               mdl_genes := mdl_genes acc; mdl_reactions := mdl_reactions acc;
               mdl_objective := mdl_objective acc;
               mdl_direction := mdl_direction acc |})
    mets m.

(** Modelled from the spec: [DictList.append] of [cobra.core] is not under
    src/; appending an entry whose id is already present raises
    [ValueError]. *)
Definition genes_append (m : Model) (g : Gene) : Py.M Model :=
  if existsb (fun y => bool_decide (gene_id y = gene_id g)) (mdl_genes m)
  then Py.raise (Py.ValueError "id is already present in list")
  else Py.ret {| mdl_id := mdl_id m; mdl_name := mdl_name m;
                 mdl_compartments := mdl_compartments m;
                 mdl_metabolites := mdl_metabolites m;
                 mdl_genes := (mdl_genes m ++ [g])%list;
                 mdl_reactions := mdl_reactions m;
                 mdl_objective := mdl_objective m;
                 mdl_direction := mdl_direction m |}.

(** [True] when no id occurs twice in the list. *)
Fixpoint distinct_ids (ids : list string) : bool :=
  match ids with
  | [] => true
  | i :: rest => negb (existsb (String.eqb i) rest) && distinct_ids rest
  end.

(** Modelled from the spec: [Model.add_reactions] of [cobra.core] is not
    under src/; the reactions whose id the model does not have yet are
    appended, and a list that repeats an id raises [ValueError], the
    exception the call site of the source catches. *)
Definition add_reactions (m : Model) (rxns : list Reaction) : Py.M Model :=
  if distinct_ids (map rxn_id rxns)
  then Py.ret {| mdl_id := mdl_id m; mdl_name := mdl_name m;
                 mdl_compartments := mdl_compartments m;
                 mdl_metabolites := mdl_metabolites m;
                 mdl_genes := mdl_genes m;
                 mdl_reactions :=
                   (mdl_reactions m ++
                    List.filter (fun r => negb (existsb (fun y => String.eqb (rxn_id y) (rxn_id r))
                                             (mdl_reactions m))) rxns)%list;
                 mdl_objective := mdl_objective m;
                 mdl_direction := mdl_direction m |}
  else Py.raise (Py.ValueError "reaction id is already present in list").

(** Modelled from the spec: [cobra.util.solver.set_objective] is not under
    src/; the objective of the model becomes the given coefficients. *)
Definition set_objective (m : Model) (coefficients : list (string * float)) : Model :=
  {| mdl_id := mdl_id m; mdl_name := mdl_name m;
     mdl_compartments := mdl_compartments m;
     mdl_metabolites := mdl_metabolites m; mdl_genes := mdl_genes m;
     mdl_reactions := mdl_reactions m;
     mdl_objective := coefficients; mdl_direction := mdl_direction m |}.

(** [cmodel.solver.objective.direction = d] *)
Definition set_direction (m : Model) (d : string) : Model :=
  {| mdl_id := mdl_id m; mdl_name := mdl_name m;
     mdl_compartments := mdl_compartments m;
     mdl_metabolites := mdl_metabolites m; mdl_genes := mdl_genes m;
     mdl_reactions := mdl_reactions m;
     mdl_objective := mdl_objective m; mdl_direction := d |}.

End cobra.

(** ** Python dictionaries with string keys, in insertion order *)

Module PyDict.

(** [d[k]], when [k] is a key *)
Fixpoint get {V} (d : list (string * V)) (k : string) : option V :=
  match d with
  | [] => None
  | (k', v) :: d' => if String.eqb k' k then Some v else get d' k
  end.

(** [d[k] = v]: an existing key keeps its place, a new key goes last. *)
Fixpoint set {V} (d : list (string * V)) (k : string) (v : V) : list (string * V) :=
  match d with
  | [] => [(k, v)]
  | (k', v') :: d' =>
      if String.eqb k' k then (k', v) :: d' else (k', v') :: set d' k v
  end.

(** [list(d)] *)
Definition keys {V} (d : list (string * V)) : list string := map fst d.

End PyDict.

(** Modelled from the spec: [Reaction.add_metabolites] of [cobra.core] is
    not under src/; each coefficient of the given dictionary is stored under
    its metabolite, added to the coefficient the reaction already has for
    it ("stoichiometry keyed by metabolite"). *)
Definition reaction_add_metabolites (r : cobra.Reaction)
    (d : list (string * float)) : cobra.Reaction :=
  {| cobra.rxn_id := cobra.rxn_id r; cobra.rxn_name := cobra.rxn_name r;
     cobra.rxn_annotation := cobra.rxn_annotation r;
     cobra.rxn_lower_bound := cobra.rxn_lower_bound r;
     cobra.rxn_upper_bound := cobra.rxn_upper_bound r;
     cobra.rxn_metabolites :=
       fold_left
         (fun acc kv =>
            match PyDict.get acc (fst kv) with
            | Some c => PyDict.set acc (fst kv) (c + snd kv)%float
            | None => PyDict.set acc (fst kv) (snd kv)
            end)
         d (cobra.rxn_metabolites r);
     cobra.rxn_gene_reaction_rule := cobra.rxn_gene_reaction_rule r |}.

(** ** sbmlnew.py *)

Import libsbml.

(** Lines 48-55 *)
Definition LONG_SHORT_DIRECTION : list (string * string) :=
  [("maximize", "max"); ("minimize", "min")].
Definition SHORT_LONG_DIRECTION : list (string * string) :=
  [("min", "minimize"); ("max", "maximize")].

Definition LOWER_BOUND : float := (-1000)%float.
Definition UPPER_BOUND : float := 1000%float.
Definition LOWER_BOUND_ID : string := "cobra_default_lb".
Definition UPPER_BOUND_ID : string := "cobra_default_ub".
Definition ZERO_BOUND_ID : string := "cobra_0_bound".

(** Lines 352-353 *)
Definition SBO_FBA_FRAMEWORK : string := "SBO:0000624".
Definition SBO_FLUX_BOUND : string := "SBO:0000626".

(** [d[k]] on a dictionary literal: [KeyError] for a missing key. *)
Definition dict_getitem {V} (d : list (string * V)) (k : string) : M V :=
  match PyDict.get d k with
  | Some v => ret v
  | None => raise (KeyError k)
  end.

(** [x.attr] where [x] may be [None]: [AttributeError] on [None]. *)
Definition deref {A} (x : option A) (attr : string) : M A :=
  match x with
  | Some a => ret a
  | None => raise (AttributeError
                     ("'NoneType' object has no attribute '" ++ attr ++ "'"))
  end.

(** The first argument of [_check_required] as the function reads it:
    [str(sbase)], [sbase.id] and [sbase.name].  The outer [None] of
    [obj_id] and [obj_name] stands for a class that has no such attribute,
    in which case reading it raises [AttributeError]. *)
Record PyObj : Type := {
  obj_str : string;
  obj_id : option (option string);
  obj_name : option (option string)
}.

Definition obj_of_sbase (b : SBase) : PyObj :=
  {| obj_str := sb_str b; obj_id := Some (sb_id b); obj_name := Some (sb_name b) |}.

(** The plugin classes of libsbml are not SBML elements: they declare
    neither [id] nor [name]. *)
Definition obj_of_plugin (p : FbcReactionPlugin) : PyObj :=
  {| obj_str := rp_str p; obj_id := None; obj_name := None |}.

Definition getattr_obj {A} (x : option A) (attr : string) : M A :=
  match x with
  | Some a => ret a
  | None => raise (AttributeError ("object has no attribute '" ++ attr ++ "'"))
  end.

(** Lines 549-564.  [sbase.get] on line 562 is not a method of any libsbml
    class, so reading it raises [AttributeError]. *)
Definition _check_required {A} (sbase : PyObj) (value : option A)
    (attribute : string) : M A :=
  match value with
  | None =>
      let msg := "required attribute '" ++ attribute ++ "' not found in '"
                 ++ obj_str sbase ++ "'" in
      sid <- getattr_obj (obj_id sbase) "id" ;;
      match sid with
      | Some i => raise (CobraSBMLError (msg ++ " with id '" ++ i ++ "'"))
      | None =>
          nm <- getattr_obj (obj_name sbase) "name" ;;
          match nm with
          | Some _ => raise (AttributeError "object has no attribute 'get'")
          | None => raise (CobraSBMLError msg)
          end
      end
  | Some v => ret v
  end.

(** [uri.split("/", 1)] as a list *)
Definition split1 (s : string) : list string :=
  match split_once "/"%char s with
  | Some (h, t) => [h; t]
  | None => [s]
  end.

(** [a, b = l]: [ValueError] unless [l] has two elements. *)
Definition unpack2 (l : list string) : M (string * string) :=
  match l with
  | [a; b] => ret (a, b)
  | _ => raise (ValueError "not enough values to unpack (expected 2)")
  end.

Abbreviation annotation_dict := (gmap string cobra.annotation_value).

(** Lines 590-607: the body of the inner loop of
    [annotate_cobra_from_sbase], for one resource URI. *)
Definition annotate_uri (uri : string) (annotation : annotation_dict)
    : M annotation_dict :=
  if negb (startswith uri "http://identifiers.org/") then
    warn (uri ++ " does not start with http://identifiers.org/") ;;;
    ret annotation
  else
    parts <- try_except
               (p <- unpack2 (split1 (str_drop 23 uri)) ;; ret (Some p))
               is_ValueError
               (fun _ =>
                  warn (uri ++ " does not conform to http://identifiers.org/provider/id") ;;;
                  ret None) ;;
    match parts with
    | None => ret annotation
    | Some (provider, identifier) =>
        match annotation !! provider with
        | Some v =>
            let v' := match v with
                      | cobra.AStr s => cobra.AList [s]
                      | _ => v
                      end in
            match v' with
            | cobra.AList l =>
                ret (<[provider := cobra.AList (l ++ [identifier])%list]> annotation)
            | cobra.AStr _ =>
                raise (AttributeError "'str' object has no attribute 'append'")
            | cobra.AInt _ =>
                raise (AttributeError "'int' object has no attribute 'append'")
            end
        | None => ret (<[provider := cobra.AStr identifier]> annotation)
        end
    end.

(** Lines 567-607.  The function updates [cobj.annotation] in place; here
    it takes the annotation of [cobj] and gives the updated one. *)
Definition annotate_cobra_from_sbase (annotation : annotation_dict)
    (sbase : SBase) : M annotation_dict :=
  let annotation :=
    match sb_sboTerm sbase with
    | Some t => <["SBO" := cobra.AInt t]> annotation
    | None => annotation
    end in
  match sb_cvterms sbase with
  | None => ret annotation
  | Some cvterms =>
      for_each cvterms
        (fun cvterm ann => for_each (cv_resources cvterm) annotate_uri ann)
        annotation
  end.

(** [number], the second parameter of [_sbml_to_model], at its default
    [float]: the stoichiometries and coefficients libsbml gives are floats
    already, and [float(x)] is [x]. *)
Definition number (x : float) : M float := ret x.

(** Setters of the attributes of [cobra.core] objects the reader assigns. *)
Definition met_with (m : cobra.Metabolite) (name : option string)
    (compartment : option string) (charge : option Z) (formula : option string)
    (annotation : annotation_dict) : cobra.Metabolite :=
  {| cobra.met_id := cobra.met_id m; cobra.met_name := name;
     cobra.met_compartment := compartment; cobra.met_charge := charge;
     cobra.met_formula := formula; cobra.met_annotation := annotation |}.

Definition rxn_set_name (r : cobra.Reaction) (name : option string) : cobra.Reaction :=
  {| cobra.rxn_id := cobra.rxn_id r; cobra.rxn_name := name;
     cobra.rxn_annotation := cobra.rxn_annotation r;
     cobra.rxn_lower_bound := cobra.rxn_lower_bound r;
     cobra.rxn_upper_bound := cobra.rxn_upper_bound r;
     cobra.rxn_metabolites := cobra.rxn_metabolites r;
     cobra.rxn_gene_reaction_rule := cobra.rxn_gene_reaction_rule r |}.

Definition rxn_set_annotation (r : cobra.Reaction) (a : annotation_dict) : cobra.Reaction :=
  {| cobra.rxn_id := cobra.rxn_id r; cobra.rxn_name := cobra.rxn_name r;
     cobra.rxn_annotation := a;
     cobra.rxn_lower_bound := cobra.rxn_lower_bound r;
     cobra.rxn_upper_bound := cobra.rxn_upper_bound r;
     cobra.rxn_metabolites := cobra.rxn_metabolites r;
     cobra.rxn_gene_reaction_rule := cobra.rxn_gene_reaction_rule r |}.

(** [reaction.lower_bound = v] *)
Definition rxn_set_lower_bound (r : cobra.Reaction) (v : float) : cobra.Reaction :=
  {| cobra.rxn_id := cobra.rxn_id r; cobra.rxn_name := cobra.rxn_name r;
     cobra.rxn_annotation := cobra.rxn_annotation r;
     cobra.rxn_lower_bound := v;
     cobra.rxn_upper_bound := cobra.rxn_upper_bound r;
     cobra.rxn_metabolites := cobra.rxn_metabolites r;
     cobra.rxn_gene_reaction_rule := cobra.rxn_gene_reaction_rule r |}.

(** [reaction.upper_bound = v] *)
Definition rxn_set_upper_bound (r : cobra.Reaction) (v : float) : cobra.Reaction :=
  {| cobra.rxn_id := cobra.rxn_id r; cobra.rxn_name := cobra.rxn_name r;
     cobra.rxn_annotation := cobra.rxn_annotation r;
     cobra.rxn_lower_bound := cobra.rxn_lower_bound r;
     cobra.rxn_upper_bound := v;
     cobra.rxn_metabolites := cobra.rxn_metabolites r;
     cobra.rxn_gene_reaction_rule := cobra.rxn_gene_reaction_rule r |}.

(** [reaction.gene_reaction_rule = gpr] *)
Definition rxn_set_gene_reaction_rule (r : cobra.Reaction) (gpr : string) : cobra.Reaction :=
  {| cobra.rxn_id := cobra.rxn_id r; cobra.rxn_name := cobra.rxn_name r;
     cobra.rxn_annotation := cobra.rxn_annotation r;
     cobra.rxn_lower_bound := cobra.rxn_lower_bound r;
     cobra.rxn_upper_bound := cobra.rxn_upper_bound r;
     cobra.rxn_metabolites := cobra.rxn_metabolites r;
     cobra.rxn_gene_reaction_rule := gpr |}.

Definition mdl_with_name_compartments (m : cobra.Model) (name : option string)
    (compartments : gmap (option string) (option string)) : cobra.Model :=
  {| cobra.mdl_id := cobra.mdl_id m; cobra.mdl_name := name;
     cobra.mdl_compartments := compartments;
     cobra.mdl_metabolites := cobra.mdl_metabolites m;
     cobra.mdl_genes := cobra.mdl_genes m;
     cobra.mdl_reactions := cobra.mdl_reactions m;
     cobra.mdl_objective := cobra.mdl_objective m;
     cobra.mdl_direction := cobra.mdl_direction m |}.

(** Lines 178-195: the body of the loop over [model.species].  The state
    is the model under construction and [boundary_ids]. *)
Definition read_species (s : Species) (st : cobra.Model * gset string)
    : M (cobra.Model * gset string) :=
  let '(cmodel, boundary_ids) := st in
  sid <- _check_required (obj_of_sbase (s_base s)) (sb_id (s_base s)) "id" ;;
  let met := cobra.new_Metabolite sid in
  let name := sb_name (s_base s) in
  let compartment := Some (s_compartment s) in
  let charge := match s_fbc s with
                | Some f => Some (sp_charge f)
                | None => cobra.met_charge met
                end in
  let formula := match s_fbc s with
                 | Some f => Some (sp_chemicalFormula f)
                 | None => cobra.met_formula met
                 end in
  let boundary_ids :=
    if s_boundaryCondition s then {[ sid ]} ∪ boundary_ids else boundary_ids in
  annotation <- annotate_cobra_from_sbase (cobra.met_annotation met) (s_base s) ;;
  let met := met_with met name compartment charge formula annotation in
  ret (cobra.add_metabolites cmodel [met], boundary_ids).

(** Lines 198-204: the body of the loop over the gene products.  [gp.get]
    on line 202 is not an attribute of [libsbml.GeneProduct]. *)
Definition read_gene_product (gp : GeneProduct) (cmodel : cobra.Model)
    : M cobra.Model :=
  let gene := cobra.new_Gene (sb_id (gp_base gp)) in
  name <- match sb_name (gp_base gp) with
          | None => raise (AttributeError "'GeneProduct' object has no attribute 'get'")
          | Some n => ret (Some n)
          end ;;
  annotation <- annotate_cobra_from_sbase (cobra.gene_annotation gene) (gp_base gp) ;;
  cobra.genes_append cmodel
    {| cobra.gene_id := cobra.gene_id gene; cobra.gene_name := name;
       cobra.gene_annotation := annotation |}.

(** Lines 214-234: the flux bounds of one reaction. *)
Definition read_bounds (model : Model) (r : Reaction) (reaction : cobra.Reaction)
    : M cobra.Reaction :=
  match r_fbc r with
  | None =>
      raise (CobraSBMLError
               ("No flux bounds on reaction '" ++ sb_str (r_base r) ++ "'"))
  | Some r_fbc =>
      lb_id <- _check_required (obj_of_plugin r_fbc)
                 (rp_lowerFluxBound r_fbc) "lowerFluxBound" ;;
      ub_id <- _check_required (obj_of_plugin r_fbc)
                 (rp_upperFluxBound r_fbc) "upperFluxBound" ;;
      let p_lb := getParameter model lb_id in
      let p_ub := getParameter model ub_id in
      lb <- deref p_lb "constant" ;;
      reaction <-
        match p_constant lb, p_value lb with
        | true, Some v => ret (rxn_set_lower_bound reaction v)
        | _, _ =>
            raise (CobraSBMLError
                     ("No constant bound '" ++ sb_str (p_base lb)
                      ++ "' for reaction '" ++ sb_str (r_base r)))
        end ;;
      ub <- deref p_ub "constant" ;;
      match p_constant ub, p_value ub with
      | true, Some v => ret (rxn_set_upper_bound reaction v)
      | _, _ =>
          raise (CobraSBMLError
                   ("No constant bound '" ++ sb_str (p_base ub)
                    ++ "' for reaction '" ++ sb_str (r_base r)))
      end
  end.

(** [stoichiometry[sid]] on the [defaultdict(lambda: 0)] of line 239 *)
Definition stoichiometry_get (stoichiometry : list (string * float))
    (sid : string) : float :=
  match PyDict.get stoichiometry sid with
  | Some v => v
  | None => 0%float
  end.

(** Lines 240-243: one reactant, [stoichiometry[sid] -= number(...)] *)
Definition read_reactant (sref : SpeciesReference)
    (stoichiometry : list (string * float)) : M (list (string * float)) :=
  let sid := sr_species sref in
  let old := stoichiometry_get stoichiometry sid in
  x <- _check_required (obj_of_sbase (sr_base sref)) (sr_stoichiometry sref)
         "stoichiometry" ;;
  v <- number x ;;
  ret (PyDict.set stoichiometry sid (old - v)%float).

(** Lines 245-247: one product, [stoichiometry[sid] += number(...)] *)
Definition read_product (sref : SpeciesReference)
    (stoichiometry : list (string * float)) : M (list (string * float)) :=
  let sid := sr_species sref in
  let old := stoichiometry_get stoichiometry sid in
  x <- _check_required (obj_of_sbase (sr_base sref)) (sr_stoichiometry sref)
         "stoichiometry" ;;
  v <- number x ;;
  ret (PyDict.set stoichiometry sid (old + v)%float).

(** Lines 251-262: the body of the loop over the keys of [stoichiometry],
    which fills [object_stoichiometry]. *)
Definition read_metabolite (cmodel : cobra.Model) (boundary_ids : gset string)
    (reaction : cobra.Reaction) (stoichiometry : list (string * float))
    (met_id : string) (object_stoichiometry : list (string * float))
    : M (list (string * float)) :=
  if bool_decide (met_id ∈ boundary_ids) then
    warn ("Boundary metabolite '" ++ met_id ++ "' used in reaction '"
          ++ cobra.rxn_id reaction ++ "'") ;;;
    ret object_stoichiometry
  else
    found <- try_except
               (metabolite <- cobra.metabolites_get_by_id cmodel met_id ;;
                ret (Some metabolite))
               is_KeyError
               (fun _ =>
                  warn ("ignoring unknown metabolite '" ++ met_id
                        ++ "' in reaction " ++ cobra.rxn_id reaction) ;;;
                  ret None) ;;
    match found with
    | None => ret object_stoichiometry
    | Some metabolite =>
        ret (PyDict.set object_stoichiometry (cobra.met_id metabolite)
               (stoichiometry_get stoichiometry met_id))
    end.

(** Lines 239-263: the equation of one reaction. *)
Definition read_equation (cmodel : cobra.Model) (boundary_ids : gset string)
    (r : Reaction) (reaction : cobra.Reaction) : M cobra.Reaction :=
  stoichiometry <- for_each (r_reactants r) read_reactant [] ;;
  stoichiometry <- for_each (r_products r) read_product stoichiometry ;;
  object_stoichiometry <-
    for_each (PyDict.keys stoichiometry)
      (read_metabolite cmodel boundary_ids reaction stoichiometry) [] ;;
  ret (reaction_add_metabolites reaction object_stoichiometry).

(** Lines 297-316: the gene reaction rule of one reaction.  The association
    is fetched and not used: the call of [process_association] on line 308
    is commented out. *)
Definition read_gpr (r_fbc : FbcReactionPlugin) (reaction : cobra.Reaction)
    : cobra.Reaction :=
  let gpa := rp_geneProductAssociation r_fbc in
  let association :=
    match gpa with
    | Some g => gpa_association g
    | None => None
    end in
  let gpr := "" in
  let gpr := if startswith gpr "(" && endswith gpr ")"
             then strip (str_inner gpr) else gpr in
  rxn_set_gene_reaction_rule reaction gpr.

(** Lines 208-316: the body of the loop over [model.reactions]; the state
    is the list [reactions].  The source appends the reaction on line 236
    and goes on changing the same object; here the finished reaction is
    appended, which gives the same list whenever the body completes. *)
Definition read_reaction (model : Model) (cmodel : cobra.Model)
    (boundary_ids : gset string) (r : Reaction) (reactions : list cobra.Reaction)
    : M (list cobra.Reaction) :=
  rid <- _check_required (obj_of_sbase (r_base r)) (sb_id (r_base r)) "id" ;;
  let reaction := cobra.new_Reaction rid in
  let reaction := rxn_set_name reaction (sb_name (r_base r)) in
  annotation <- annotate_cobra_from_sbase (cobra.rxn_annotation reaction) (r_base r) ;;
  let reaction := rxn_set_annotation reaction annotation in
  reaction <- read_bounds model r reaction ;;
  reaction <- read_equation cmodel boundary_ids r reaction ;;
  r_fbc <- deref (r_fbc r) "getGeneProductAssociation" ;;
  ret (reactions ++ [read_gpr r_fbc reaction])%list.

(** Lines 334-344: the body of the loop over the flux objectives. *)
Definition read_flux_objective (cmodel : cobra.Model) (flux_obj : FluxObjective)
    (coefficients : list (string * float)) : M (list (string * float)) :=
  let rid := fo_reaction flux_obj in
  objective_reaction <-
    try_except (cobra.reactions_get_by_id cmodel rid) is_KeyError
      (fun _ => raise (CobraSBMLError
                         ("Objective reaction '" ++ rid ++ "' not found"))) ;;
  try_except
    (v <- number (fo_coefficient flux_obj) ;;
     ret (PyDict.set coefficients (cobra.rxn_id objective_reaction) v))
    is_ValueError
    (fun e => warn (str_exn e) ;;; ret coefficients).

(** Lines 323-346: the objective. *)
Definition read_objective (model_fbc : FbcModelPlugin) (cmodel : cobra.Model)
    : M cobra.Model :=
  match mp_listOfObjectives model_fbc with
  | None => warn "listOfObjectives element not found" ;;; ret cmodel
  | Some obj_list =>
      let obj_id := lo_activeObjective obj_list in
      obj <- deref (getObjective obj_list obj_id) "getType" ;;
      obj_direction <- dict_getitem LONG_SHORT_DIRECTION (o_type obj) ;;
      coefficients <-
        for_each (o_fluxObjectives obj) (read_flux_objective cmodel) [] ;;
      let cmodel := cobra.set_objective cmodel coefficients in
      ret (cobra.set_direction cmodel obj_direction)
  end.

(** Lines 159-321: the model, its species, genes and reactions, that is
    [_sbml_to_model] up to the objective.  [doc_fbc] of line 159 is not
    used.  The result is [model_fbc] with the model built so far. *)
Definition read_model (doc : SBMLDocument) : M (FbcModelPlugin * cobra.Model) :=
  model <- deref (d_model doc) "getPlugin" ;;
  let model_fbc := m_fbc model in
  match model_fbc with
  | None => warn "Model does not contain FBC information."
  | Some f =>
      match mp_strict f with
      | None => warn ("Loading SBML model without fbc:strict="
                      ++ dquote ++ "true" ++ dquote)
      | Some _ => ret tt
      end
  end ;;;
  let cmodel := cobra.new_Model (sb_id (m_base model)) in
  let cmodel :=
    mdl_with_name_compartments cmodel (sb_name (m_base model))
      (fold_left (fun d c => <[sb_id (c_base c) := sb_name (c_base c)]> d)
         (m_compartments model) ∅) in
  st <- for_each (m_species model) read_species (cmodel, ∅) ;;
  fbc <- deref model_fbc "getListOfGeneProducts" ;;
  cmodel <- for_each (mp_geneProducts fbc) read_gene_product (fst st) ;;
  reactions <-
    for_each (m_reactions model) (read_reaction model cmodel (snd st)) [] ;;
  cmodel <- try_except (cobra.add_reactions cmodel reactions) is_ValueError
              (fun e => warn (str_exn e) ;;; ret cmodel) ;;
  ret (fbc, cmodel).

(** Lines 151-348. *)
Definition _sbml_to_model (doc : SBMLDocument) : M cobra.Model :=
  st <- read_model doc ;;
  read_objective (fst st) (snd st).

(** *** Name resolution

    Python resolves a name in the local scope of the running function, then
    among the names bound at module level, then among the builtins, and
    raises [NameError] when none of them binds it. *)

(** A bound value, as far as [str.format] and attribute access can tell. *)
Inductive pyvalue : Type :=
| VNone
| VBool (b : bool)
| VInt (z : Z)
| VStr (s : string)
| VObject (type_name : string).

(** The names of the [builtins] module (CPython 3.11). *)
Definition builtin_names : list string :=
  [
   "ArithmeticError"; "AssertionError"; "AttributeError"; "BaseException";
   "BaseExceptionGroup"; "BlockingIOError"; "BrokenPipeError";
   "BufferError"; "BytesWarning"; "ChildProcessError";
   "ConnectionAbortedError"; "ConnectionError"; "ConnectionRefusedError";
   "ConnectionResetError"; "DeprecationWarning"; "EOFError"; "Ellipsis";
   "EncodingWarning"; "EnvironmentError"; "Exception"; "ExceptionGroup";
   "False"; "FileExistsError"; "FileNotFoundError"; "FloatingPointError";
   "FutureWarning"; "GeneratorExit"; "IOError"; "ImportError";
   "ImportWarning"; "IndentationError"; "IndexError"; "InterruptedError";
   "IsADirectoryError"; "KeyError"; "KeyboardInterrupt"; "LookupError";
   "MemoryError"; "ModuleNotFoundError"; "NameError"; "None";
   "NotADirectoryError"; "NotImplemented"; "NotImplementedError"; "OSError";
   "OverflowError"; "PendingDeprecationWarning"; "PermissionError";
   "ProcessLookupError"; "RecursionError"; "ReferenceError";
   "ResourceWarning"; "RuntimeError"; "RuntimeWarning";
   "StopAsyncIteration"; "StopIteration"; "SyntaxError"; "SyntaxWarning";
   "SystemError"; "SystemExit"; "TabError"; "TimeoutError"; "True";
   "TypeError"; "UnboundLocalError"; "UnicodeDecodeError";
   "UnicodeEncodeError"; "UnicodeError"; "UnicodeTranslateError";
   "UnicodeWarning"; "UserWarning"; "ValueError"; "Warning";
   "ZeroDivisionError"; "__build_class__"; "__debug__"; "__doc__";
   "__import__"; "__loader__"; "__name__"; "__package__"; "__spec__"; "abs";
   "aiter"; "all"; "anext"; "any"; "ascii"; "bin"; "bool"; "breakpoint";
   "bytearray"; "bytes"; "callable"; "chr"; "classmethod"; "compile";
   "complex"; "copyright"; "credits"; "delattr"; "dict"; "dir"; "divmod";
   "enumerate"; "eval"; "exec"; "exit"; "filter"; "float"; "format";
   "frozenset"; "getattr"; "globals"; "hasattr"; "hash"; "help"; "hex";
   "id"; "input"; "int"; "isinstance"; "issubclass"; "iter"; "len";
   "license"; "list"; "locals"; "map"; "max"; "memoryview"; "min"; "next";
   "object"; "oct"; "open"; "ord"; "pow"; "print"; "property"; "quit";
   "range"; "repr"; "reversed"; "round"; "set"; "setattr"; "slice";
   "sorted"; "staticmethod"; "str"; "sum"; "super"; "tuple"; "type"; "vars";
   "zip"
  ].

(** The names bound at module level once sbmlnew.py has been loaded: its
    imports (lines 27-45, those of lxml included), its constants, its class
    and its functions. *)
Definition module_scope : list (string * pyvalue) :=
  [ ("absolute_import", VObject "_Feature"); ("os", VObject "module");
    ("warn", VObject "builtin_function_or_method");
    ("string_types", VObject "tuple"); ("defaultdict", VObject "type");
    ("namedtuple", VObject "function"); ("libsbml", VObject "module");
    ("Gene", VObject "type"); ("Metabolite", VObject "type");
    ("Model", VObject "type"); ("Reaction", VObject "type");
    ("set_objective", VObject "function");
    ("parse", VObject "builtin_function_or_method");
    ("Element", VObject "builtin_function_or_method");
    ("SubElement", VObject "builtin_function_or_method");
    ("ElementTree", VObject "builtin_function_or_method");
    ("register_namespace", VObject "builtin_function_or_method");
    ("ParseError", VObject "type"); ("XPath", VObject "type");
    ("_with_lxml", VBool true);
    ("LONG_SHORT_DIRECTION", VObject "dict");
    ("SHORT_LONG_DIRECTION", VObject "dict");
    ("LOWER_BOUND", VInt (-1000)); ("UPPER_BOUND", VInt 1000);
    ("LOWER_BOUND_ID", VStr LOWER_BOUND_ID);
    ("UPPER_BOUND_ID", VStr UPPER_BOUND_ID);
    ("ZERO_BOUND_ID", VStr ZERO_BOUND_ID);
    ("Unit", VObject "type"); ("UNITS_FLUX", VObject "tuple");
    ("CobraSBMLError", VObject "type");
    ("read_sbml_model", VObject "function");
    ("write_sbml_model", VObject "function");
    ("_sbml_to_model", VObject "function");
    ("SBO_FBA_FRAMEWORK", VStr SBO_FBA_FRAMEWORK);
    ("SBO_FLUX_BOUND", VStr SBO_FLUX_BOUND);
    ("_model_to_sbml", VObject "function");
    ("_check_required", VObject "function");
    ("annotate_cobra_from_sbase", VObject "function");
    ("validate_sbml_model", VObject "function") ].

(** The value a name evaluates to. *)
Definition load_name (locals : list (string * pyvalue)) (n : string) : M pyvalue :=
  match PyDict.get locals n with
  | Some v => ret v
  | None =>
      match PyDict.get module_scope n with
      | Some v => ret v
      | None =>
          if existsb (String.eqb n) builtin_names
          then ret (VObject "builtin")
          else raise (NameError n)
      end
  end.

(** [str(v)], which ['{}'.format(v)] inserts; an object without a string
    form of its own prints as its type. *)
Definition py_str (v : pyvalue) : string :=
  match v with
  | VNone => "None"
  | VBool true => "True"
  | VBool false => "False"
  | VInt z => pretty z
  | VStr s => s
  | VObject t => "<" ++ t ++ " object>"
  end.

(** [v.attr]: none of the values above has an attribute the source reads. *)
Definition py_getattr (v : pyvalue) (attr : string) : M pyvalue :=
  raise (AttributeError
           ("'" ++ py_str v ++ "' has no attribute '" ++ attr ++ "'")).

(** *** Building a document with libsbml *)

Definition digit_of (a : ascii) : option Z :=
  let n := Z.of_nat (nat_of_ascii a) in
  if ((48 <=? n) && (n <=? 57))%Z then Some (n - 48)%Z else None.

Fixpoint Z_of_digits (s : string) (acc : Z) : option Z :=
  match s with
  | EmptyString => Some acc
  | String a s' =>
      match digit_of a with
      | Some d => Z_of_digits s' (10 * acc + d)%Z
      | None => None
      end
  end.

(** The integer of an SBO identifier such as [SBO:0000624]. *)
Definition sbo_term_of_id (s : string) : option Z :=
  if startswith s "SBO:" && (String.length s =? 11)%nat
  then Z_of_digits (str_drop 4 s) 0
  else None.

(** [libsbml.SBMLDocument(sbmlns)] for the namespaces of lines 363-364
    (SBML level 3 version 1 with the fbc package, version 2). *)
Definition new_SBMLDocument : SBMLDocument :=
  {| d_sboTerm := None; d_fbc_required := None; d_model := None |}.

Definition setPackageRequired (doc : SBMLDocument) (b : bool) : SBMLDocument :=
  {| d_sboTerm := d_sboTerm doc; d_fbc_required := Some b;
     d_model := d_model doc |}.

Definition doc_setSBOTerm (doc : SBMLDocument) (sbo : string) : SBMLDocument :=
  {| d_sboTerm := sbo_term_of_id sbo; d_fbc_required := d_fbc_required doc;
     d_model := d_model doc |}.

(** [doc.createModel()]: an empty model; as the document has the fbc
    package, the model has its fbc plugin. *)
Definition createModel : Model :=
  {| m_base := {| sb_str := "<Model>"; sb_id := Some ""; sb_name := Some "";
                  sb_sboTerm := None; sb_cvterms := None |};
     m_compartments := []; m_species := []; m_parameters := [];
     m_reactions := [];
     m_fbc := Some {| mp_strict := None; mp_geneProducts := [];
                      mp_listOfObjectives :=
                        Some {| lo_activeObjective := ""; lo_objectives := [] |} |} |}.

Definition model_with (m : Model) (b : SBase) (fbc : option FbcModelPlugin) : Model :=
  {| m_base := b; m_compartments := m_compartments m;
     m_species := m_species m; m_parameters := m_parameters m;
     m_reactions := m_reactions m; m_fbc := fbc |}.

(** [model_fbc.setStrict(b)] *)
Definition setStrict (m : Model) (b : bool) : M Model :=
  f <- deref (m_fbc m) "setStrict" ;;
  ret (model_with m (m_base m)
         (Some {| mp_strict := Some b; mp_geneProducts := mp_geneProducts f;
                  mp_listOfObjectives := mp_listOfObjectives f |})).

Definition setId (m : Model) (sid : string) : Model :=
  model_with m
    {| sb_str := sb_str (m_base m); sb_id := Some sid;
       sb_name := sb_name (m_base m); sb_sboTerm := sb_sboTerm (m_base m);
       sb_cvterms := sb_cvterms (m_base m) |} (m_fbc m).

Definition setName (m : Model) (name : string) : Model :=
  model_with m
    {| sb_str := sb_str (m_base m); sb_id := sb_id (m_base m);
       sb_name := Some name; sb_sboTerm := sb_sboTerm (m_base m);
       sb_cvterms := sb_cvterms (m_base m) |} (m_fbc m).

(** [model.setSBOTerm(v)] takes the integer or the identifier. *)
Definition model_setSBOTerm (m : Model) (v : pyvalue) : M Model :=
  term <- match v with
          | VInt z => ret (Some z)
          | VStr s => ret (sbo_term_of_id s)
          | _ => raise (TypeError "setSBOTerm: wrong argument type")
          end ;;
  ret (model_with m
         {| sb_str := sb_str (m_base m); sb_id := sb_id (m_base m);
            sb_name := sb_name (m_base m); sb_sboTerm := term;
            sb_cvterms := sb_cvterms (m_base m) |} (m_fbc m)).

(** [libsbml.writeSBMLToFile(doc, filename)]: the file is written. *)
Definition writeSBMLToFile (doc : SBMLDocument) (filename : string) : M unit :=
  fun w => (Return tt, {| warnings := warnings w;
                          files := (files w ++ [(filename, doc)])%list |}).

(** *** Writing *)

(** Lines 356-377.  [model] is the model of [doc], so the document returned
    on line 377 holds the model as changed on lines 371-376.  The statements
    after line 377 cannot be reached. *)
Definition _model_to_sbml (cobra_model : cobra.Model) (units : pyvalue)
    : M SBMLDocument :=
  let doc := new_SBMLDocument in
  let doc := setPackageRequired doc false in
  let doc := doc_setSBOTerm doc SBO_FBA_FRAMEWORK in
  let model := createModel in
  model <- setStrict model true ;;
  let locals :=
    [ ("cobra_model", VObject "Model"); ("units", units);
      ("sbmlns", VObject "SBMLNamespaces"); ("doc", VObject "SBMLDocument");
      ("model", VObject "Model"); ("model_fbc", VObject "FbcModelPlugin") ] in
  model_id <- load_name locals "model_id" ;;
  let model := setId model (py_str model_id ++ "_fba") in
  model_id <- load_name locals "model_id" ;;
  let model := setName model (py_str model_id ++ " (FBA)") in
  comp <- load_name locals "comp" ;;
  term <- py_getattr comp "SBO_FLUX_BALANCE_FRAMEWORK" ;;
  model <- model_setSBOTerm model term ;;
  ret {| d_sboTerm := d_sboTerm doc; d_fbc_required := d_fbc_required doc;
         d_model := Some model |}.

(** The call [_model_to_sbml(cobra_model, **kwargs)] of line 147 against
    the signature [(cobra_model, units=True)]: the value of [units], or
    [TypeError] for a keyword the signature does not take. *)
Fixpoint bind_kwargs (kwargs : list (string * pyvalue)) (units : pyvalue)
    : M pyvalue :=
  match kwargs with
  | [] => ret units
  | (k, v) :: rest =>
      if String.eqb k "units" then bind_kwargs rest v
      else if String.eqb k "cobra_model" then
        raise (TypeError
                 "_model_to_sbml() got multiple values for argument 'cobra_model'")
      else
        raise (TypeError
                 ("_model_to_sbml() got an unexpected keyword argument '"
                  ++ k ++ "'"))
  end.

(** Lines 116-148. *)
Definition write_sbml_model (cobra_model : cobra.Model) (filename : string)
    (kwargs : list (string * pyvalue)) : M unit :=
  units <- bind_kwargs kwargs (VBool true) ;;
  doc <- _model_to_sbml cobra_model units ;;
  writeSBMLToFile doc filename.

(** *** Reading *)

(** The argument of [read_sbml_model]: a string (a path or SBML text), a
    file object, given by what calling its [read] method does, or an object
    that is neither, given by what [os.path.exists] does on it. *)
Inductive filename_arg : Type :=
| ArgStr (s : string)
| ArgHandle (read : M string)
| ArgOther (exists_ : M bool).

Definition read_error_message : string :=
  "Something went wrong reading the model. You can get a detailed "
  ++ "report using the `cobra.io.sbml3.validate_sbml_model` function "
  ++ "or using the online validator at http://sbml.org/validator".

Section Reading.

(** What the source calls outside this repository: the file system that
    [os.path.exists] asks about a string, and the two libsbml readers.
    Each may raise. *)
Variable path_exists : string -> M bool.
Variable readSBMLFromFile : filename_arg -> M SBMLDocument.
Variable readSBMLFromString : string -> M SBMLDocument.

(** [os.path.exists(filename)], which calls [os.stat]: a string is looked
    up in the file system; a file object is not a path, and [os.stat]
    raises [TypeError] on it. *)
Definition os_path_exists (filename : filename_arg) : M bool :=
  match filename with
  | ArgStr s => path_exists s
  | ArgHandle _ =>
      raise (TypeError ("stat: path should be string, bytes, os.PathLike "
                        ++ "or integer, not TextIOWrapper"))
  | ArgOther exists_ => exists_
  end.

(** Lines 93-107: the statements under [try]. *)
Definition read_sbml_model_try (filename : filename_arg) : M cobra.Model :=
  found <- os_path_exists filename ;;
  doc <- (if found then readSBMLFromFile filename
          else match filename with
               | ArgStr s => readSBMLFromString s
               | ArgHandle read => (s <- read ;; readSBMLFromString s)
               | ArgOther _ =>
                   raise (CobraSBMLError "Input format is not supported.")
               end) ;;
  _sbml_to_model doc.

(** Lines 70-113.  The handler of lines 109-113 does not name the exception
    it caught, and raises a new one from a fixed message. *)
Definition read_sbml_model (filename : filename_arg) : M cobra.Model :=
  try_except (read_sbml_model_try filename) is_Exception
    (fun _ => raise (CobraSBMLError read_error_message)).

End Reading.

(** *** Validation *)

(** [assert cond], with assertions enabled as they are by default. *)
Definition py_assert (cond : bool) : M unit :=
  if cond then ret tt else raise AssertionError.

(** Lines 610-616.  The function has no [return]: it would give [None]. *)
Definition validate_sbml_model (path : filename_arg) : M unit :=
  py_assert (0 =? 1)%Z.

(** ** Reference definitions

    What the statements below compare the code with. *)

Definition identifiers_org : string := "http://identifiers.org/".

(** The provider and the identifier of a resource URI, when it starts with
    [http://identifiers.org/] and the remainder contains a [/]: the parts of
    the remainder before and after its first [/]. *)
Definition spec_uri_entry (uri : string) : option (string * string) :=
  if String.prefix identifiers_org uri
  then split_once "/"%char (str_drop (String.length identifiers_org) uri)
  else None.

(** The resource URIs of an element, in the order they are met. *)
Definition sbase_uris (sbase : SBase) : list string :=
  match sb_cvterms sbase with
  | None => []
  | Some cvterms => concat (map cv_resources cvterms)
  end.

(** The identifiers the URIs give for one provider, in the order met. *)
Definition spec_identifiers (provider : string) (uris : list string) : list string :=
  omap (fun uri =>
          match spec_uri_entry uri with
          | Some (p, i) => if String.eqb p provider then Some i else None
          | None => None
          end) uris.


(** The warning for a URI that is skipped. *)
Definition spec_uri_warning (uri : string) : list string :=
  if String.prefix identifiers_org uri then
    match spec_uri_entry uri with
    | Some _ => []
    | None => [uri ++ " does not conform to http://identifiers.org/provider/id"]
    end
  else [uri ++ " does not start with http://identifiers.org/"].

(** The stoichiometry of a species reference. *)
Definition sref_value (sref : SpeciesReference) : float :=
  match sr_stoichiometry sref with
  | Some v => v
  | None => 0%float
  end.

(** What one occurrence as a reactant, or as a product, does to the
    coefficient of the species [sid]. *)
Definition subtract_reactant (sid : string) (acc : float)
    (sref : SpeciesReference) : float :=
  if String.eqb (sr_species sref) sid then (acc - sref_value sref)%float else acc.

Definition add_product (sid : string) (acc : float)
    (sref : SpeciesReference) : float :=
  if String.eqb (sr_species sref) sid then (acc + sref_value sref)%float else acc.

(** The net coefficient of a species in a reaction: from 0, the
    stoichiometry of each of its occurrences as a reactant is subtracted,
    then that of each of its occurrences as a product is added. *)
Definition spec_net_coefficient (r : Reaction) (sid : string) : float :=
  fold_left (add_product sid) (r_products r)
    (fold_left (subtract_reactant sid) (r_reactants r) 0%float).

(** The species of the reaction, reactants then products. *)
Definition reaction_species (r : Reaction) : list string :=
  (map sr_species (r_reactants r) ++ map sr_species (r_products r))%list.

(** A species with this id has [boundaryCondition] true. *)
Definition is_boundary (model : Model) (sid : string) : bool :=
  existsb (fun s => bool_decide (sb_id (s_base s) = Some sid) && s_boundaryCondition s)
    (m_species model).

(** A species with this id is declared. *)
Definition is_species (model : Model) (sid : string) : bool :=
  existsb (fun s => bool_decide (sb_id (s_base s) = Some sid)) (m_species model).

(** The coefficient of the last flux objective that names the reaction. *)
Definition spec_objective_coefficient (fos : list FluxObjective) (rid : string)
    : option float :=
  fo_coefficient <$>
    List.find (fun fo => String.eqb (fo_reaction fo) rid) (rev fos).

(** Whatever a computation gives, the warnings it ends with extend the
    warnings it started with. *)
Definition extends_warnings {A} (m : M A) : Prop :=
  forall w o w', m w = (o, w') -> incl (warnings w) (warnings w').

(** What a stored value becomes when one more identifier of its provider
    is met. *)
Definition spec_append_identifier (v : option cobra.annotation_value)
    (i : string) : option cobra.annotation_value :=
  match v with
  | None => Some (cobra.AStr i)
  | Some (cobra.AStr s) => Some (cobra.AList [s; i])
  | Some (cobra.AList l) => Some (cobra.AList (l ++ [i])%list)
  | Some (cobra.AInt z) => Some (cobra.AInt z)
  end.


(** The two warnings of the loop over the species of a reaction. *)
Definition boundary_warning (sid rid : string) : string :=
  "Boundary metabolite '" ++ sid ++ "' used in reaction '" ++ rid ++ "'".

Definition unknown_warning (sid rid : string) : string :=
  "ignoring unknown metabolite '" ++ sid ++ "' in reaction " ++ rid.

(** What holds of a reaction of the model built from the reaction [r] of
    the document, given the warnings emitted: it has the id of [r]; its
    stoichiometry has exactly the species of [r] that are declared and are
    not boundary species, each with its net coefficient; and each other
    species of [r] has been warned of. *)
Definition stoichiometry_ok (model : Model) (r : Reaction)
    (reaction : cobra.Reaction) (ws : list string) : Prop :=
  sb_id (r_base r) = Some (cobra.rxn_id reaction)
  /\ (forall sid c,
         In (sid, c) (cobra.rxn_metabolites reaction) <->
         In sid (reaction_species r)
         /\ is_boundary model sid = false
         /\ is_species model sid = true
         /\ c = spec_net_coefficient r sid)
  /\ (forall sid,
         In sid (reaction_species r) -> is_boundary model sid = true ->
         In (boundary_warning sid (cobra.rxn_id reaction)) ws)
  /\ (forall sid,
         In sid (reaction_species r) -> is_boundary model sid = false ->
         is_species model sid = false ->
         In (unknown_warning sid (cobra.rxn_id reaction)) ws).

(** The model has a metabolite with this id. *)
Definition has_metabolite (cmodel : cobra.Model) (sid : string) : Prop :=
  exists met, In met (cobra.mdl_metabolites cmodel) /\ cobra.met_id met = sid.

(** The model has a reaction with this id. *)
Definition has_reaction (cmodel : cobra.Model) (rid : string) : bool :=
  existsb (fun x => String.eqb (cobra.rxn_id x) rid) (cobra.mdl_reactions cmodel).

(** The model [read_model] starts from: the id, the name and the
    compartments of the SBML model (lines 170-174). *)
Definition initial_model (model : Model) : cobra.Model :=
  mdl_with_name_compartments (cobra.new_Model (sb_id (m_base model)))
    (sb_name (m_base model))
    (fold_left (fun d c => <[sb_id (c_base c) := sb_name (c_base c)]> d)
       (m_compartments model) ∅).

(** Two models have the same id, name and compartments. *)
Definition same_header (a b : cobra.Model) : Prop :=
  cobra.mdl_id a = cobra.mdl_id b
  /\ cobra.mdl_name a = cobra.mdl_name b
  /\ cobra.mdl_compartments a = cobra.mdl_compartments b.

(** The name of the last compartment of the list that has the id. *)
Definition spec_compartment_name (cs : list Compartment) (cid : option string)
    : option (option string) :=
  (fun c => sb_name (c_base c)) <$>
    List.find (fun c => bool_decide (sb_id (c_base c) = cid)) (rev cs).

(** The metabolite is read from the species: id, name, compartment, and
    charge and formula when the species has the fbc plugin. *)
Definition metabolite_of_species (s : Species) (met : cobra.Metabolite) : Prop :=
  sb_id (s_base s) = Some (cobra.met_id met)
  /\ cobra.met_name met = sb_name (s_base s)
  /\ cobra.met_compartment met = Some (s_compartment s)
  /\ cobra.met_charge met = sp_charge <$> s_fbc s
  /\ cobra.met_formula met = sp_chemicalFormula <$> s_fbc s
  /\ exists w0 w1,
       annotate_cobra_from_sbase ∅ (s_base s) w0
       = (Return (cobra.met_annotation met), w1).

(** The reaction is read from the reaction [r] of the model: id, name, and
    for bounds the values of the constant parameters its flux bounds
    name. *)
Definition reaction_of_sbml (model : Model) (r : Reaction)
    (reaction : cobra.Reaction) : Prop :=
  sb_id (r_base r) = Some (cobra.rxn_id reaction)
  /\ cobra.rxn_name reaction = sb_name (r_base r)
  /\ exists f lb_id ub_id p_lb p_ub,
       r_fbc r = Some f
       /\ rp_lowerFluxBound f = Some lb_id
       /\ rp_upperFluxBound f = Some ub_id
       /\ getParameter model lb_id = Some p_lb
       /\ getParameter model ub_id = Some p_ub
       /\ p_constant p_lb = true
       /\ p_value p_lb = Some (cobra.rxn_lower_bound reaction)
       /\ p_constant p_ub = true
       /\ p_value p_ub = Some (cobra.rxn_upper_bound reaction).

(** The gene is read from the gene product: id, name and annotation. *)
Definition gene_of_product (gp : GeneProduct) (gene : cobra.Gene) : Prop :=
  cobra.gene_id gene = sb_id (gp_base gp)
  /\ cobra.gene_name gene = sb_name (gp_base gp)
  /\ exists w0 w1,
       annotate_cobra_from_sbase ∅ (gp_base gp) w0
       = (Return (cobra.gene_annotation gene), w1).

(** ** Sample documents *)

Module Samples.

Definition species (sid : string) (boundary : bool) : Species :=
  {| s_base := sbase_of_id sid; s_compartment := "c"; s_fbc := None;
     s_boundaryCondition := boundary |}.

Definition parameter (sid : string) (v : float) : SBMLParameter :=
  {| p_base := sbase_of_id sid; p_constant := true; p_value := Some v |}.

Definition sref (sid : string) (v : float) : SpeciesReference :=
  {| sr_base := sbase_of_id sid; sr_species := sid; sr_stoichiometry := Some v |}.

Definition reaction (rid lb ub : string) (a : option FbcAssociation)
    (reactants products : list SpeciesReference) : Reaction :=
  {| r_base := sbase_of_id rid;
     r_fbc := Some {| rp_str := "<FbcReactionPlugin>";
                      rp_lowerFluxBound := Some lb;
                      rp_upperFluxBound := Some ub;
                      rp_geneProductAssociation :=
                        Some {| gpa_association := a |} |};
     r_reactants := reactants; r_products := products |}.

Definition objective (type rid : string) : ListOfObjectives :=
  {| lo_activeObjective := "obj";
     lo_objectives :=
       [ {| o_id := "obj"; o_type := type;
            o_fluxObjectives :=
              [ {| fo_reaction := rid; fo_coefficient := 1 |} ] |} ] |}.

Definition document (reactions : list Reaction) (objectives : ListOfObjectives)
    : SBMLDocument :=
  {| d_sboTerm := None; d_fbc_required := Some false;
     d_model :=
       Some {| m_base := sbase_of_id "m";
               m_compartments := [ {| c_base := sbase_of_id "c" |} ];
               m_species := [species "A" false; species "B" false; species "X" true];
               m_parameters := [parameter "lb" (-1000); parameter "ub" 1000];
               m_reactions := reactions;
               m_fbc :=
                 Some {| mp_strict := Some true;
                         mp_geneProducts :=
                           [ {| gp_base := sbase_of_id "g1" |};
                             {| gp_base := sbase_of_id "g2" |} ];
                         mp_listOfObjectives := Some objectives |} |} |}.

(** A -> B with bounds -1000 and 1000, ruled by [g1 and g2], maximised.
    The reaction also names A as a product, the boundary species X and the
    undeclared species Q. *)
Definition R1 : Reaction :=
  reaction "R1" "lb" "ub"
    (Some (FbcAnd [GeneProductRef "g1"; GeneProductRef "g2"]))
    [sref "A" 1; sref "X" 1; sref "Q" 2] [sref "B" 2; sref "A" 3].

Definition doc_R1 : SBMLDocument := document [R1] (objective "maximize" "R1").

(** The same with a lower flux bound that names no parameter. *)
Definition doc_unresolved_bound : SBMLDocument :=
  document
    [reaction "R1" "missing" "ub" None [sref "A" 1] [sref "B" 1]]
    (objective "maximize" "R1").

(** The same with an objective on a reaction the model does not have. *)
Definition doc_unknown_objective : SBMLDocument :=
  document [R1] (objective "minimize" "R2").


(** A model with one reaction, bounded by -10 and 5. *)
Definition model_one_reaction : cobra.Model :=
  {| cobra.mdl_id := Some "m"; cobra.mdl_name := Some "";
     cobra.mdl_compartments := ∅; cobra.mdl_metabolites := [];
     cobra.mdl_genes := [];
     cobra.mdl_reactions :=
       [ {| cobra.rxn_id := "R1"; cobra.rxn_name := Some "";
            cobra.rxn_annotation := ∅;
            cobra.rxn_lower_bound := (-10)%float;
            cobra.rxn_upper_bound := 5%float;
            cobra.rxn_metabolites := [];
            cobra.rxn_gene_reaction_rule := "" |} ];
     cobra.mdl_objective := []; cobra.mdl_direction := "max" |}.

End Samples.

(** ** More sample documents *)

Module MoreSamples.

(** The sample document without the fbc plugin on its model. *)
Definition doc_without_fbc : SBMLDocument :=
  {| d_sboTerm := None; d_fbc_required := None;
     d_model :=
       Some {| m_base := sbase_of_id "m"; m_compartments := [];
               m_species := [Samples.species "A" false];
               m_parameters := []; m_reactions := []; m_fbc := None |} |}.

(** A model with the fbc plugin, [strict] not set, two compartments that
    share the id [c], and a list of objectives given as argument. *)
Definition doc_with (objectives : option ListOfObjectives) : SBMLDocument :=
  {| d_sboTerm := None; d_fbc_required := None;
     d_model :=
       Some {| m_base := sbase_of_id "m";
               m_compartments :=
                 [ {| c_base := {| sb_str := "c"; sb_id := Some "c";
                                   sb_name := Some "cytosol";
                                   sb_sboTerm := None; sb_cvterms := None |} |};
                   {| c_base := {| sb_str := "c"; sb_id := Some "c";
                                   sb_name := Some "cell";
                                   sb_sboTerm := None; sb_cvterms := None |} |} ];
               m_species :=
                 [ {| s_base := sbase_of_id "A"; s_compartment := "c";
                      s_fbc := Some {| sp_charge := (-2)%Z;
                                       sp_chemicalFormula := "C6H12O6" |};
                      s_boundaryCondition := false |};
                   Samples.species "X" true ];
               m_parameters :=
                 [Samples.parameter "lb" (-5); Samples.parameter "ub" 7];
               m_reactions :=
                 [Samples.reaction "R1" "lb" "ub" None
                    [Samples.sref "A" 1] [Samples.sref "X" 1]];
               m_fbc :=
                 Some {| mp_strict := None; mp_geneProducts := [];
                         mp_listOfObjectives := objectives |} |} |}.

(** An element with an SBO term and a resource of the provider [SBO]. *)
Definition annotated_SBO : SBase :=
  {| sb_str := "<Species A>"; sb_id := Some "A"; sb_name := Some "";
     sb_sboTerm := Some 247%Z;
     sb_cvterms :=
       Some [ {| cv_resources :=
                   [ "http://identifiers.org/chebi/CHEBI:15377";
                     "http://identifiers.org/SBO/SBO:0000247" ] |} ] |}.


(** The sample document with an objective whose type is the empty string,
    on a reaction the model does not have. *)
Definition doc_objective_without_type : SBMLDocument :=
  Samples.document [Samples.R1] (Samples.objective "" "R2").

End MoreSamples.

(** * Properties *)

(** ** The monad *)

Lemma bind_Return {A B} (m : M A) (k : A -> M B) w b w' :
  bind m k w = (Return b, w') ->
  exists a w1, m w = (Return a, w1) /\ k a w1 = (Return b, w').
Proof.
  unfold bind. destruct (m w) as [[a|e] w1]; intros H.
  - exists a, w1. split; [reflexivity | exact H].
  - discriminate H.
Qed.

Lemma bind_Return_eq {A B} (m : M A) (k : A -> M B) w a w1 :
  m w = (Return a, w1) -> bind m k w = k a w1.
Proof. unfold bind. intros ->. reflexivity. Qed.

Lemma bind_Raise_eq {A B} (m : M A) (k : A -> M B) w e w1 :
  m w = (Raise e, w1) -> bind m k w = (Raise e, w1).
Proof. unfold bind. intros ->. reflexivity. Qed.

Lemma ret_Return {A} (a b : A) w w' :
  ret a w = (Return b, w') -> a = b /\ w = w'.
Proof. unfold ret. intros H. inversion H. split; reflexivity. Qed.

(** Decomposes hypotheses that say a sequence of statements returned. *)
Ltac inv_M :=
  repeat match goal with
         | H : bind _ _ _ = (Return _, _) |- _ =>
             let a := fresh "a" in
             let w := fresh "w" in
             let H1 := fresh "H" in
             let H2 := fresh "H" in
             apply bind_Return in H; destruct H as (a & w & H1 & H2)
         | H : ret _ _ = (Return _, _) |- _ =>
             apply ret_Return in H; destruct H as [? ?]; subst
         | H : raise _ _ = (Return _, _) |- _ => discriminate H
         end.

(** A loop keeps what each of its iterations keeps. *)
Lemma for_each_invariant {A S} (I : S -> world -> Prop) (body : A -> S -> M S)
    (l : list A) :
  (forall x s w s' w', In x l -> I s w -> body x s w = (Return s', w') -> I s' w') ->
  forall s w s' w',
    I s w -> for_each l body s w = (Return s', w') -> I s' w'.
Proof.
  induction l as [|x l IH]; intros Hbody s w s' w' HI Hrun; simpl in Hrun.
  - apply ret_Return in Hrun. destruct Hrun; subst. exact HI.
  - apply bind_Return in Hrun. destruct Hrun as (s1 & w1 & Hx & Hrest).
    apply (IH (fun y t u t' u' Hy => Hbody y t u t' u' (or_intror Hy)) s1 w1 s' w').
    + apply (Hbody x s w s1 w1); [left; reflexivity | exact HI | exact Hx].
    + exact Hrest.
Qed.

Lemma for_each_app {A S} (body : A -> S -> M S) (l1 l2 : list A) s w :
  for_each (l1 ++ l2)%list body s w
  = bind (for_each l1 body s) (for_each l2 body) w.
Proof.
  revert s w. induction l1 as [|x l1 IH]; intros s w; simpl.
  - reflexivity.
  - unfold bind in *. destruct (body x s w) as [[s1|e] w1].
    + apply IH.
    + reflexivity.
Qed.

(** ** Writing: [_model_to_sbml] and [write_sbml_model] *)

(** No scope binds [model_id]: it is neither a local of [_model_to_sbml],
    nor a module-level name, nor a builtin. *)
Lemma model_id_unbound (locals : list (string * pyvalue)) w :
  PyDict.get locals "model_id" = None ->
  load_name locals "model_id" w = (Raise (NameError "model_id"), w).
Proof. intros H. unfold load_name. rewrite H. reflexivity. Qed.

Lemma _model_to_sbml_raises (cobra_model : cobra.Model) (units : pyvalue) w :
  _model_to_sbml cobra_model units w = (Raise (NameError "model_id"), w).
Proof. reflexivity. Qed.

Lemma bind_kwargs_total (kwargs : list (string * pyvalue)) :
  forall units w, exists o, bind_kwargs kwargs units w = (o, w).
Proof.
  induction kwargs as [|[k v] rest IH]; intros units w; simpl.
  - eexists. reflexivity.
  - destruct (String.eqb k "units"); [apply IH |].
    destruct (String.eqb k "cobra_model"); eexists; reflexivity.
Qed.

(** C2.  For every cobra model [_model_to_sbml] raises [NameError] for the
    name [model_id], whatever [units] is, and so does [write_sbml_model]
    called with the model and a file name, or with [units] as well; and
    whatever keyword arguments [write_sbml_model] is given, it raises and
    leaves the files as they were: no document is written. *)
Theorem write_sbml_model_raises_NameError :
  (forall (cobra_model : cobra.Model) (units : pyvalue) (w : world),
      _model_to_sbml cobra_model units w = (Raise (NameError "model_id"), w))
  /\ (forall (cobra_model : cobra.Model) (filename : string) (w : world),
         write_sbml_model cobra_model filename [] w
         = (Raise (NameError "model_id"), w))
  /\ (forall (cobra_model : cobra.Model) (filename : string) (units : pyvalue)
             (w : world),
         write_sbml_model cobra_model filename [("units", units)] w
         = (Raise (NameError "model_id"), w))
  /\ (forall (cobra_model : cobra.Model) (filename : string)
             (kwargs : list (string * pyvalue)) (w : world),
         exists e, write_sbml_model cobra_model filename kwargs w = (Raise e, w)).
Proof.
  repeat split; try reflexivity.
  intros cobra_model filename kwargs w. unfold write_sbml_model.
  destruct (bind_kwargs_total kwargs (VBool true) w) as [[units|e] Hk].
  - exists (NameError "model_id").
    rewrite (bind_Return_eq _ _ _ _ _ Hk). reflexivity.
  - exists e. rewrite (bind_Raise_eq _ _ _ _ _ Hk). reflexivity.
Qed.

(** C1.  The round trip fails on every model: [_model_to_sbml] raises
    [NameError] before it gives a document, so converting a model to a
    document and back gives no model at all. *)
Theorem round_trip_raises (cobra_model : cobra.Model) (units : pyvalue) (w : world) :
  (doc <- _model_to_sbml cobra_model units ;; _sbml_to_model doc) w
  = (Raise (NameError "model_id"), w).
Proof.
  apply bind_Raise_eq. apply _model_to_sbml_raises.
Qed.

(** C8.  Writing the sample model, whose one reaction R1 is bounded by -10
    and 5, creates no flux bound parameter: [_model_to_sbml] raises
    [NameError] for [model_id] on line 374 and [write_sbml_model] writes no
    file, so neither a shared nor a dedicated parameter is made for the
    bounds.  The statements of lines 413-449 follow the [return] of line
    377, and the name [strnum], which they call to render the value of a
    parameter, is bound in no scope unless it is a local. *)
Theorem write_sbml_model_no_bound_parameter :
  _model_to_sbml Samples.model_one_reaction (VBool true) world0
  = (Raise (NameError "model_id"), world0)
  /\ run (write_sbml_model Samples.model_one_reaction "model.xml" [])
     = (Raise (NameError "model_id"),
        {| warnings := []; files := [] |})
  /\ (forall (locals : list (string * pyvalue)) (w : world),
         PyDict.get locals "strnum" = None ->
         load_name locals "strnum" w = (Raise (NameError "strnum"), w)).
Proof.
  split; [reflexivity |]. split; [reflexivity |].
  intros locals w H. unfold load_name. rewrite H. reflexivity.
Qed.

(** ** Reading: [read_sbml_model] *)



(** An interrupt that arrives while libsbml parses is not caught. *)
Example read_sbml_model_interrupted :
  read_sbml_model (fun _ => ret false)
    (fun _ => raise (ValueError "not a file"))
    (fun _ => raise KeyboardInterrupt)
    (ArgStr "<sbml/>") world0
  = (Raise KeyboardInterrupt, world0).
Proof. reflexivity. Qed.

(** ** Validation: [validate_sbml_model] *)

(** C10.  For every argument [validate_sbml_model] raises [AssertionError],
    so it never gives a result, while the message of [read_sbml_model]
    names a function [validate_sbml_model]. *)
Theorem validate_sbml_model_raises (path : filename_arg) (w : world) :
  validate_sbml_model path w = (Raise AssertionError, w)
  /\ exists before after,
       read_error_message = before ++ "validate_sbml_model" ++ after.
Proof.
  split; [reflexivity |].
  exists "Something went wrong reading the model. You can get a detailed report using the `cobra.io.sbml3.".
  exists "` function or using the online validator at http://sbml.org/validator".
  reflexivity.
Qed.

(** ** Dictionaries *)

Section PyDictFacts.

Context {V : Type}.
Implicit Types (d : list (string * V)) (k : string) (v : V).

Lemma get_set d k v k' :
  PyDict.get (PyDict.set d k v) k'
  = if String.eqb k k' then Some v else PyDict.get d k'.
Proof.
  induction d as [|[k0 v0] d IH]; simpl.
  - reflexivity.
  - destruct (String.eqb k0 k) eqn:E0; simpl.
    + apply String.eqb_eq in E0. subst k0.
      destruct (String.eqb k k'); reflexivity.
    + destruct (String.eqb k0 k') eqn:E1.
      * apply String.eqb_eq in E1. subst k0.
        rewrite String.eqb_sym, E0. reflexivity.
      * exact IH.
Qed.

Lemma get_set_same d k v : PyDict.get (PyDict.set d k v) k = Some v.
Proof. rewrite get_set, String.eqb_refl. reflexivity. Qed.

Lemma get_set_other d k v k' :
  k <> k' -> PyDict.get (PyDict.set d k v) k' = PyDict.get d k'.
Proof.
  intros H. rewrite get_set.
  destruct (String.eqb k k') eqn:E; [| reflexivity].
  apply String.eqb_eq in E. contradiction.
Qed.

Lemma keys_set d k v k' :
  In k' (PyDict.keys (PyDict.set d k v)) <-> k' = k \/ In k' (PyDict.keys d).
Proof.
  unfold PyDict.keys. induction d as [|[k0 v0] d IH]; simpl.
  - intuition.
  - destruct (String.eqb k0 k) eqn:E0; simpl.
    + apply String.eqb_eq in E0. subst k0. intuition.
    + rewrite IH. intuition.
Qed.

Lemma get_None_keys d k : PyDict.get d k = None <-> ~ In k (PyDict.keys d).
Proof.
  unfold PyDict.keys. induction d as [|[k0 v0] d IH]; simpl.
  - intuition.
  - destruct (String.eqb k0 k) eqn:E0.
    + apply String.eqb_eq in E0. subst k0. split; [discriminate | intuition].
    + apply String.eqb_neq in E0. rewrite IH. intuition.
Qed.

Lemma get_Some_In d k v : PyDict.get d k = Some v -> In (k, v) d.
Proof.
  induction d as [|[k0 v0] d IH]; simpl; [discriminate |].
  destruct (String.eqb k0 k) eqn:E0.
  - apply String.eqb_eq in E0. subst k0. intros [= ->]. left. reflexivity.
  - intros H. right. exact (IH H).
Qed.

Lemma NoDup_keys_set d k v :
  List.NoDup (PyDict.keys d) -> List.NoDup (PyDict.keys (PyDict.set d k v)).
Proof.
  unfold PyDict.keys. induction d as [|[k0 v0] d IH]; simpl; intros H.
  - constructor; [intros [] | constructor].
  - destruct (String.eqb k0 k) eqn:E0; simpl.
    + exact H.
    + inversion H as [|? ? Hnotin Hnodup]; subst.
      constructor; [| exact (IH Hnodup)].
      intros Hin. apply (keys_set d k v k0) in Hin.
      destruct Hin as [->|Hin]; [| contradiction].
      rewrite String.eqb_refl in E0. discriminate.
Qed.

Lemma In_get d k v :
  List.NoDup (PyDict.keys d) -> In (k, v) d -> PyDict.get d k = Some v.
Proof.
  unfold PyDict.keys. induction d as [|[k0 v0] d IH]; simpl; intros Hnd Hin.
  - contradiction.
  - inversion Hnd as [|? ? Hnotin Hnodup]; subst.
    destruct Hin as [[= -> ->]|Hin].
    + rewrite String.eqb_refl. reflexivity.
    + destruct (String.eqb k0 k) eqn:E0.
      * apply String.eqb_eq in E0. subst k0. exfalso. apply Hnotin.
        apply (in_map fst) in Hin. exact Hin.
      * exact (IH Hnodup Hin).
Qed.

End PyDictFacts.

(** ** Warnings only grow *)

Lemma extends_ret {A} (a : A) : extends_warnings (ret a).
Proof. intros w o w' [= <- <-]. apply incl_refl. Qed.

Lemma extends_raise {A} (e : exn) : extends_warnings (@raise A e).
Proof. intros w o w' [= <- <-]. apply incl_refl. Qed.

Lemma extends_warn (msg : string) : extends_warnings (warn msg).
Proof.
  intros w o w' [= <- <-]. simpl. apply incl_appl, incl_refl.
Qed.

Lemma extends_bind {A B} (m : M A) (k : A -> M B) :
  extends_warnings m -> (forall a, extends_warnings (k a)) ->
  extends_warnings (bind m k).
Proof.
  intros Hm Hk w o w'. unfold bind.
  destruct (m w) as [[a|e] w1] eqn:E; intros H.
  - eapply incl_tran; [exact (Hm _ _ _ E) | exact (Hk _ _ _ _ H)].
  - inversion H; subst. exact (Hm _ _ _ E).
Qed.

Lemma extends_try_except {A} (body : M A) catches (handler : exn -> M A) :
  extends_warnings body -> (forall e, extends_warnings (handler e)) ->
  extends_warnings (try_except body catches handler).
Proof.
  intros Hb Hh w o w'. unfold try_except.
  destruct (body w) as [[a|e] w1] eqn:E; intros H.
  - inversion H; subst. exact (Hb _ _ _ E).
  - destruct (catches e).
    + eapply incl_tran; [exact (Hb _ _ _ E) | exact (Hh _ _ _ _ H)].
    + inversion H; subst. exact (Hb _ _ _ E).
Qed.

Lemma extends_for_each {A S} (body : A -> S -> M S) (l : list A) :
  (forall x s, extends_warnings (body x s)) ->
  forall s, extends_warnings (for_each l body s).
Proof.
  intros Hb. induction l as [|x l IH]; intros s; simpl.
  - apply extends_ret.
  - apply extends_bind; [apply Hb | exact IH].
Qed.

Ltac extends_tac :=
  repeat first
    [ progress intros
    | apply extends_ret | apply extends_raise | apply extends_warn
    | apply extends_bind | apply extends_try_except | apply extends_for_each
    | match goal with
      | |- extends_warnings (match ?x with _ => _ end) => destruct x
      | |- extends_warnings (if ?x then _ else _) => destruct x
      | |- extends_warnings (let '(_, _) := ?x in _) => destruct x
      end ].

Lemma extends__check_required {A} sbase (value : option A) attribute :
  extends_warnings (_check_required sbase value attribute).
Proof. unfold _check_required, getattr_obj. extends_tac. Qed.

Lemma extends_annotate_uri uri annotation :
  extends_warnings (annotate_uri uri annotation).
Proof. unfold annotate_uri, unpack2. extends_tac. Qed.

Lemma extends_annotate_cobra_from_sbase annotation sbase :
  extends_warnings (annotate_cobra_from_sbase annotation sbase).
Proof.
  unfold annotate_cobra_from_sbase. extends_tac; apply extends_annotate_uri.
Qed.

Lemma extends_read_bounds model r reaction :
  extends_warnings (read_bounds model r reaction).
Proof.
  unfold read_bounds, deref. extends_tac; apply extends__check_required.
Qed.

Lemma extends_read_metabolite cmodel boundary_ids reaction stoichiometry met_id os :
  extends_warnings
    (read_metabolite cmodel boundary_ids reaction stoichiometry met_id os).
Proof.
  unfold read_metabolite, cobra.metabolites_get_by_id. extends_tac.
Qed.

Lemma extends_read_equation cmodel boundary_ids r reaction :
  extends_warnings (read_equation cmodel boundary_ids r reaction).
Proof.
  unfold read_equation, read_reactant, read_product, number.
  extends_tac;
    first [ apply extends__check_required | apply extends_read_metabolite ].
Qed.

Lemma extends_read_reaction model cmodel boundary_ids r reactions :
  extends_warnings (read_reaction model cmodel boundary_ids r reactions).
Proof.
  unfold read_reaction, deref.
  extends_tac;
    first [ apply extends__check_required
          | apply extends_annotate_cobra_from_sbase
          | apply extends_read_bounds
          | apply extends_read_metabolite ].
Qed.

Lemma extends_read_objective model_fbc cmodel :
  extends_warnings (read_objective model_fbc cmodel).
Proof.
  unfold read_objective, read_flux_objective, deref, dict_getitem, number,
    cobra.reactions_get_by_id.
  extends_tac.
Qed.

(** ** Strings *)







Lemma split_once_None (c : ascii) (s : string) :
  split_once c s = None <-> ~ In c (list_ascii_of_string s).
Proof.
  induction s as [|a s IH]; simpl.
  - intuition.
  - destruct (Ascii.eqb a c) eqn:E.
    + apply Ascii.eqb_eq in E. subst a. split; [discriminate | intuition].
    + apply Ascii.eqb_neq in E.
      destruct (split_once c s) as [[h t]|].
      * split; [discriminate |]. intros Hn. exfalso. apply Hn. right.
        destruct IH as [_ IH]. destruct (in_dec ascii_dec c (list_ascii_of_string s)) as [i|n]; [exact i|].
        discriminate (IH n).
      * split; [| reflexivity]. intros _ [Ha|Hin]; [congruence |].
        exact (proj1 IH eq_refl Hin).
Qed.


(** ** Annotations: [annotate_cobra_from_sbase] *)


(** A URI without an entry is skipped with its warning. *)
Lemma annotate_uri_skipped (uri : string) (annotation : annotation_dict) w :
  spec_uri_entry uri = None ->
  annotate_uri uri annotation w
  = (Return annotation,
     {| warnings := (warnings w ++ spec_uri_warning uri)%list; files := files w |}).
Proof.
  unfold spec_uri_entry, spec_uri_warning, annotate_uri, startswith, spec_uri_entry.
  change (String.prefix "http://identifiers.org/" uri)
    with (String.prefix identifiers_org uri).
  destruct (String.prefix identifiers_org uri) eqn:E; simpl.
  - change (String.length identifiers_org) with 23. intros Hs.
    unfold split1. rewrite Hs. reflexivity.
  - intros _. reflexivity.
Qed.

(** A URI with an entry is stored under its provider. *)
Lemma annotate_uri_stored (uri p i : string) (annotation : annotation_dict) w :
  spec_uri_entry uri = Some (p, i) ->
  (forall z, annotation !! p <> Some (cobra.AInt z)) ->
  exists v,
    spec_append_identifier (annotation !! p) i = Some v
    /\ (forall z, v <> cobra.AInt z)
    /\ annotate_uri uri annotation w = (Return (<[p := v]> annotation), w)
    /\ spec_uri_warning uri = [].
Proof.
  unfold spec_uri_warning.
  intros Hs Hint. pose proof Hs as Hs'. revert Hs'.
  unfold spec_uri_entry at 1, annotate_uri, startswith.
  change (String.prefix "http://identifiers.org/" uri)
    with (String.prefix identifiers_org uri).
  destruct (String.prefix identifiers_org uri) eqn:E; [| discriminate].
  change (String.length identifiers_org) with 23. intros Hsplit.
  rewrite Hs. simpl negb. cbv iota.
  unfold split1. rewrite Hsplit.
  destruct (annotation !! p) as [[z|s|l]|] eqn:Ep.
  - exfalso. exact (Hint z eq_refl).
  - eexists. split; [reflexivity |]. split; [discriminate |].
    split; [| reflexivity].
    unfold bind, try_except, unpack2, ret. simpl. rewrite Ep. reflexivity.
  - eexists. split; [reflexivity |]. split; [discriminate |].
    split; [| reflexivity].
    unfold bind, try_except, unpack2, ret. simpl. rewrite Ep. reflexivity.
  - eexists. split; [reflexivity |]. split; [discriminate |].
    split; [| reflexivity].
    unfold bind, try_except, unpack2, ret. simpl. rewrite Ep. reflexivity.
Qed.

(** A URI whose provider holds the integer SBO term makes the function
    raise [AttributeError]. *)
Lemma annotate_uri_on_integer (uri p i : string) (annotation : annotation_dict) z w :
  spec_uri_entry uri = Some (p, i) ->
  annotation !! p = Some (cobra.AInt z) ->
  annotate_uri uri annotation w
  = (Raise (AttributeError "'int' object has no attribute 'append'"), w).
Proof.
  intros Hs Ep. revert Hs.
  unfold spec_uri_entry, annotate_uri, startswith.
  change (String.prefix "http://identifiers.org/" uri)
    with (String.prefix identifiers_org uri).
  destruct (String.prefix identifiers_org uri) eqn:E; [| discriminate].
  change (String.length identifiers_org) with 23. intros Hsplit.
  simpl negb. cbv iota. unfold split1. rewrite Hsplit.
  unfold bind, try_except, unpack2, ret. simpl. rewrite Ep. reflexivity.
Qed.

Lemma spec_identifiers_cons (p uri : string) (uris : list string) :
  spec_identifiers p (uri :: uris)
  = match spec_uri_entry uri with
    | Some (q, i) =>
        if String.eqb q p then i :: spec_identifiers p uris
        else spec_identifiers p uris
    | None => spec_identifiers p uris
    end.
Proof.
  unfold spec_identifiers. simpl.
  destruct (spec_uri_entry uri) as [[q i]|]; [| reflexivity].
  destruct (String.eqb q p); reflexivity.
Qed.


Lemma for_each_cvterms (cvterms : list CVTerm) :
  forall (annotation : annotation_dict) w,
    for_each cvterms
      (fun cvterm ann => for_each (cv_resources cvterm) annotate_uri ann)
      annotation w
    = for_each (concat (map cv_resources cvterms)) annotate_uri annotation w.
Proof.
  induction cvterms as [|cv cvterms IH]; intros annotation w.
  - reflexivity.
  - cbn [for_each map concat]. rewrite for_each_app.
    unfold bind. destruct (for_each (cv_resources cv) annotate_uri annotation w)
      as [[a|e] w1]; [apply IH | reflexivity].
Qed.





(** With the SBO term set, a URI of the provider ['SBO'] makes the function
    raise [AttributeError]: the value under ['SBO'] is an integer. *)
Example annotate_cobra_from_sbase_SBO_provider :
  fst (run (annotate_cobra_from_sbase ∅
              {| sb_str := ""; sb_id := Some "A"; sb_name := Some "";
                 sb_sboTerm := Some 247%Z;
                 sb_cvterms :=
                   Some [ {| cv_resources :=
                               ["http://identifiers.org/SBO/SBO:0000247"] |} ] |}))
  = Raise (AttributeError "'int' object has no attribute 'append'").
Proof. vm_compute. reflexivity. Qed.


(** ** Reading: the species, the genes and the reactions *)

Lemma _check_required_Return {A} sbase (value : option A) attribute w x w' :
  _check_required sbase value attribute w = (Return x, w') ->
  value = Some x /\ w' = w.
Proof.
  unfold _check_required. destruct value as [v|].
  - intros [= -> ->]. split; reflexivity.
  - unfold bind, getattr_obj, raise, ret.
    destruct (obj_id sbase) as [[i|]|]; try discriminate.
    destruct (obj_name sbase) as [[n|]|]; discriminate.
Qed.

Lemma deref_Return {A} (x : option A) attr w a w' :
  deref x attr w = (Return a, w') -> x = Some a /\ w' = w.
Proof.
  unfold deref. destruct x; [| discriminate].
  intros [= -> ->]. split; reflexivity.
Qed.

(** *** The two loops over the species references *)

Lemma stoichiometry_get_set d k v k' :
  stoichiometry_get (PyDict.set d k v) k'
  = if String.eqb k k' then v else stoichiometry_get d k'.
Proof.
  unfold stoichiometry_get. rewrite get_set.
  destruct (String.eqb k k'); reflexivity.
Qed.

Lemma read_reactant_Return sref d w d' w' :
  read_reactant sref d w = (Return d', w') ->
  w' = w
  /\ d' = PyDict.set d (sr_species sref)
            (stoichiometry_get d (sr_species sref) - sref_value sref)%float.
Proof.
  unfold read_reactant, number. intros H. inv_M.
  apply _check_required_Return in H0. destruct H0 as [Hv ->].
  unfold sref_value. rewrite Hv. split; reflexivity.
Qed.

Lemma read_product_Return sref d w d' w' :
  read_product sref d w = (Return d', w') ->
  w' = w
  /\ d' = PyDict.set d (sr_species sref)
            (stoichiometry_get d (sr_species sref) + sref_value sref)%float.
Proof.
  unfold read_product, number. intros H. inv_M.
  apply _check_required_Return in H0. destruct H0 as [Hv ->].
  unfold sref_value. rewrite Hv. split; reflexivity.
Qed.

Lemma reactants_loop (srefs : list SpeciesReference) :
  forall d w d' w',
    for_each srefs read_reactant d w = (Return d', w') ->
    w' = w
    /\ (forall sid,
           stoichiometry_get d' sid
           = fold_left (subtract_reactant sid) srefs (stoichiometry_get d sid))
    /\ (forall sid, In sid (PyDict.keys d') <->
                    In sid (PyDict.keys d) \/ In sid (map sr_species srefs))
    /\ (List.NoDup (PyDict.keys d) -> List.NoDup (PyDict.keys d')).
Proof.
  induction srefs as [|sref srefs IH]; intros d w d' w' H; simpl in H.
  - apply ret_Return in H. destruct H as [<- <-].
    repeat split; simpl; intuition.
  - apply bind_Return in H. destruct H as (d1 & w1 & Hstep & Hrest).
    apply read_reactant_Return in Hstep. destruct Hstep as [-> ->].
    destruct (IH _ _ _ _ Hrest) as (-> & Hget & Hkeys & Hnd).
    split; [reflexivity |]. split; [| split].
    + intros sid. rewrite Hget. simpl. f_equal.
      rewrite stoichiometry_get_set. unfold subtract_reactant.
      destruct (String.eqb (sr_species sref) sid) eqn:E; [| reflexivity].
      apply String.eqb_eq in E. subst sid. reflexivity.
    + intros sid. rewrite Hkeys, keys_set. simpl. intuition.
    + intros H. apply Hnd. apply NoDup_keys_set. exact H.
Qed.

Lemma products_loop (srefs : list SpeciesReference) :
  forall d w d' w',
    for_each srefs read_product d w = (Return d', w') ->
    w' = w
    /\ (forall sid,
           stoichiometry_get d' sid
           = fold_left (add_product sid) srefs (stoichiometry_get d sid))
    /\ (forall sid, In sid (PyDict.keys d') <->
                    In sid (PyDict.keys d) \/ In sid (map sr_species srefs))
    /\ (List.NoDup (PyDict.keys d) -> List.NoDup (PyDict.keys d')).
Proof.
  induction srefs as [|sref srefs IH]; intros d w d' w' H; simpl in H.
  - apply ret_Return in H. destruct H as [<- <-].
    repeat split; simpl; intuition.
  - apply bind_Return in H. destruct H as (d1 & w1 & Hstep & Hrest).
    apply read_product_Return in Hstep. destruct Hstep as [-> ->].
    destruct (IH _ _ _ _ Hrest) as (-> & Hget & Hkeys & Hnd).
    split; [reflexivity |]. split; [| split].
    + intros sid. rewrite Hget. simpl. f_equal.
      rewrite stoichiometry_get_set. unfold add_product.
      destruct (String.eqb (sr_species sref) sid) eqn:E; [| reflexivity].
      apply String.eqb_eq in E. subst sid. reflexivity.
    + intros sid. rewrite Hkeys, keys_set. simpl. intuition.
    + intros H. apply Hnd. apply NoDup_keys_set. exact H.
Qed.

(** *** The loop that fills [object_stoichiometry] *)

Lemma metabolites_get_by_id_found cmodel sid w :
  has_metabolite cmodel sid ->
  exists met,
    cobra.metabolites_get_by_id cmodel sid w = (Return met, w)
    /\ cobra.met_id met = sid.
Proof.
  intros (met & Hin & Hid). unfold cobra.metabolites_get_by_id.
  destruct (find (fun x => String.eqb (cobra.met_id x) sid)
              (cobra.mdl_metabolites cmodel)) as [x|] eqn:E.
  - apply find_some in E. destruct E as [_ E]. apply String.eqb_eq in E.
    exists x. split; [reflexivity | exact E].
  - exfalso. pose proof (find_none _ _ E met Hin) as Hf. simpl in Hf.
    rewrite Hid, String.eqb_refl in Hf. discriminate.
Qed.

Lemma metabolites_get_by_id_missing cmodel sid w :
  ~ has_metabolite cmodel sid ->
  cobra.metabolites_get_by_id cmodel sid w = (Raise (KeyError sid), w).
Proof.
  intros Hno. unfold cobra.metabolites_get_by_id.
  destruct (find (fun x => String.eqb (cobra.met_id x) sid)
              (cobra.mdl_metabolites cmodel)) as [x|] eqn:E; [| reflexivity].
  exfalso. apply Hno. apply find_some in E. destruct E as [Hin E].
  apply String.eqb_eq in E. exists x. split; assumption.
Qed.

Lemma has_metabolite_dec cmodel sid :
  has_metabolite cmodel sid \/ ~ has_metabolite cmodel sid.
Proof.
  destruct (find (fun x => String.eqb (cobra.met_id x) sid)
              (cobra.mdl_metabolites cmodel)) as [x|] eqn:E.
  - left. apply find_some in E. destruct E as [Hin E].
    apply String.eqb_eq in E. exists x. split; assumption.
  - right. intros (met & Hin & Hid).
    pose proof (find_none _ _ E met Hin) as Hf. simpl in Hf.
    rewrite Hid, String.eqb_refl in Hf. discriminate.
Qed.

(** One key of [stoichiometry]: a boundary species and an unknown species
    are warned of and left out, any other is stored with its coefficient. *)
Lemma read_metabolite_cases cmodel (bids : gset string) reaction d sid os w :
  (sid ∈ bids
   /\ read_metabolite cmodel bids reaction d sid os w
      = (Return os,
         {| warnings := (warnings w ++ [boundary_warning sid (cobra.rxn_id reaction)])%list;
            files := files w |}))
  \/ ((sid ∉ bids) /\ ~ has_metabolite cmodel sid
      /\ read_metabolite cmodel bids reaction d sid os w
         = (Return os,
            {| warnings := (warnings w ++ [unknown_warning sid (cobra.rxn_id reaction)])%list;
               files := files w |}))
  \/ ((sid ∉ bids) /\ has_metabolite cmodel sid
      /\ read_metabolite cmodel bids reaction d sid os w
         = (Return (PyDict.set os sid (stoichiometry_get d sid)), w)).
Proof.
  unfold read_metabolite. destruct (bool_decide (sid ∈ bids)) eqn:Eb.
  - left. apply bool_decide_eq_true in Eb. split; [exact Eb | reflexivity].
  - right. apply bool_decide_eq_false in Eb.
    destruct (has_metabolite_dec cmodel sid) as [Hk|Hk].
    + right. split; [exact Eb |]. split; [exact Hk |].
      destruct (metabolites_get_by_id_found cmodel sid w Hk) as (met & Hrun & Hid).
      unfold bind at 1, try_except, bind at 1. rewrite Hrun. simpl.
      rewrite Hid. reflexivity.
    + left. split; [exact Eb |]. split; [exact Hk |].
      unfold bind at 1, try_except, bind at 1.
      rewrite (metabolites_get_by_id_missing cmodel sid w Hk). reflexivity.
Qed.

Lemma metabolites_loop cmodel (bids : gset string) reaction d (keys : list string) :
  forall os w os' w',
    for_each keys (read_metabolite cmodel bids reaction d) os w = (Return os', w') ->
    (forall sid, In sid keys -> sid ∉ bids -> has_metabolite cmodel sid ->
                 PyDict.get os' sid = Some (stoichiometry_get d sid))
    /\ (forall sid, ~ (In sid keys /\ (sid ∉ bids) /\ has_metabolite cmodel sid) ->
                    PyDict.get os' sid = PyDict.get os sid)
    /\ (List.NoDup (PyDict.keys os) -> List.NoDup (PyDict.keys os'))
    /\ (forall sid, In sid keys -> sid ∈ bids ->
                    In (boundary_warning sid (cobra.rxn_id reaction)) (warnings w'))
    /\ (forall sid, In sid keys -> sid ∉ bids -> ~ has_metabolite cmodel sid ->
                    In (unknown_warning sid (cobra.rxn_id reaction)) (warnings w'))
    /\ incl (warnings w) (warnings w').
Proof.
  induction keys as [|k keys IH]; intros os w os' w' H; simpl in H.
  - apply ret_Return in H. destruct H as [<- <-].
    repeat split; try (intros; simpl in *; tauto). apply incl_refl.
  - apply bind_Return in H. destruct H as (os1 & w1 & Hstep & Hrest).
    destruct (IH _ _ _ _ Hrest) as (Hin & Hout & Hnd & Hb & Hu & Hincl).
    assert (Hw1 : incl (warnings w) (warnings w1)).
    { exact (extends_read_metabolite _ _ _ _ _ _ _ _ _ Hstep). }
    destruct (read_metabolite_cases cmodel bids reaction d k os w)
      as [(Hkb & Hrun)|[(Hkb & Hkn & Hrun)|(Hkb & Hkn & Hrun)]];
      rewrite Hrun in Hstep; inversion Hstep; subst os1 w1; clear Hstep.
    + split; [| split; [| split; [| split; [| split]]]].
      * intros sid [->|Hs] Hnb Hk; [contradiction | exact (Hin sid Hs Hnb Hk)].
      * intros sid Hn. apply Hout. intros (Hs & Hnb & Hk). apply Hn.
        split; [right; exact Hs | split; assumption].
      * exact Hnd.
      * intros sid [->|Hs] Hsb; [| exact (Hb sid Hs Hsb)].
        apply Hincl. simpl. apply in_or_app. right. left. reflexivity.
      * intros sid [->|Hs] Hnb Hk; [contradiction | exact (Hu sid Hs Hnb Hk)].
      * eapply incl_tran; [exact Hw1 | exact Hincl].
    + split; [| split; [| split; [| split; [| split]]]].
      * intros sid [->|Hs] Hnb Hk; [contradiction | exact (Hin sid Hs Hnb Hk)].
      * intros sid Hn. apply Hout. intros (Hs & Hnb & Hk). apply Hn.
        split; [right; exact Hs | split; assumption].
      * exact Hnd.
      * intros sid [->|Hs] Hsb; [contradiction | exact (Hb sid Hs Hsb)].
      * intros sid [->|Hs] Hnb Hk; [| exact (Hu sid Hs Hnb Hk)].
        apply Hincl. simpl. apply in_or_app. right. left. reflexivity.
      * eapply incl_tran; [exact Hw1 | exact Hincl].
    + split; [| split; [| split; [| split; [| split]]]].
      * intros sid Hs Hnb Hk.
        destruct (in_dec string_dec sid keys) as [Hi|Hni].
        -- exact (Hin sid Hi Hnb Hk).
        -- destruct Hs as [->|Hs]; [| contradiction].
           rewrite Hout by tauto. apply get_set_same.
      * intros sid Hn. rewrite Hout.
        -- apply get_set_other. intros ->. apply Hn.
           split; [left; reflexivity | split; assumption].
        -- intros (Hs & Hnb & Hk). apply Hn.
           split; [right; exact Hs | split; assumption].
      * intros H. apply Hnd. apply NoDup_keys_set. exact H.
      * intros sid [->|Hs] Hsb; [contradiction | exact (Hb sid Hs Hsb)].
      * intros sid [->|Hs] Hnb Hk; [contradiction | exact (Hu sid Hs Hnb Hk)].
      * exact Hincl.
Qed.

(** *** The stoichiometry of a new reaction *)

Lemma set_fresh {V} (d : list (string * V)) k v :
  ~ In k (PyDict.keys d) -> PyDict.set d k v = (d ++ [(k, v)])%list.
Proof.
  unfold PyDict.keys. induction d as [|[k0 v0] d IH]; simpl; intros H.
  - reflexivity.
  - destruct (String.eqb k0 k) eqn:E.
    + apply String.eqb_eq in E. subst k0. exfalso. apply H. left. reflexivity.
    + rewrite IH; [reflexivity |]. intros Hin. apply H. right. exact Hin.
Qed.

(** Added to a reaction, a dictionary without repeated keys, none of which
    the reaction has, is appended as it is. *)
Lemma add_metabolites_fresh (os : list (string * float)) :
  forall acc,
    List.NoDup (PyDict.keys os) ->
    (forall k, In k (PyDict.keys os) -> ~ In k (PyDict.keys acc)) ->
    fold_left
      (fun acc kv =>
         match PyDict.get acc (fst kv) with
         | Some c => PyDict.set acc (fst kv) (c + snd kv)%float
         | None => PyDict.set acc (fst kv) (snd kv)
         end) os acc
    = (acc ++ os)%list.
Proof.
  induction os as [|[k v] os IH]; intros acc Hnd Hdisj; simpl.
  - rewrite app_nil_r. reflexivity.
  - unfold PyDict.keys in Hnd. simpl in Hnd.
    inversion Hnd as [|? ? Hk Hnd']; subst.
    assert (Hfresh : ~ In k (PyDict.keys acc)).
    { apply Hdisj. left. reflexivity. }
    rewrite (proj2 (get_None_keys acc k) Hfresh).
    rewrite (set_fresh acc k v Hfresh).
    rewrite IH.
    + rewrite <- app_assoc. reflexivity.
    + exact Hnd'.
    + intros k' Hin Hin'. unfold PyDict.keys in Hin'.
      rewrite map_app in Hin'. apply in_app_or in Hin'.
      destruct Hin' as [Hin'|[<-|[]]].
      * apply (Hdisj k'); [right; exact Hin | exact Hin'].
      * exact (Hk Hin).
Qed.

Lemma reaction_add_metabolites_new reaction (os : list (string * float)) :
  cobra.rxn_metabolites reaction = [] ->
  List.NoDup (PyDict.keys os) ->
  cobra.rxn_metabolites (reaction_add_metabolites reaction os) = os
  /\ cobra.rxn_id (reaction_add_metabolites reaction os) = cobra.rxn_id reaction
  /\ cobra.rxn_gene_reaction_rule (reaction_add_metabolites reaction os)
     = cobra.rxn_gene_reaction_rule reaction.
Proof.
  intros Hnew Hnd. unfold reaction_add_metabolites. simpl.
  rewrite Hnew, add_metabolites_fresh; [| exact Hnd | intros k _ []].
  repeat split.
Qed.

(** *** The equation of one reaction *)

Lemma net_coefficient_after r d0 d1 d2 w0 w1 w2 :
  for_each (r_reactants r) read_reactant d0 w0 = (Return d1, w1) ->
  for_each (r_products r) read_product d1 w1 = (Return d2, w2) ->
  d0 = [] ->
  w2 = w0
  /\ (forall sid, stoichiometry_get d2 sid = spec_net_coefficient r sid)
  /\ (forall sid, In sid (PyDict.keys d2) <-> In sid (reaction_species r)).
Proof.
  intros H1 H2 ->.
  apply reactants_loop in H1. destruct H1 as (-> & Hg1 & Hk1 & _).
  apply products_loop in H2. destruct H2 as (-> & Hg2 & Hk2 & _).
  split; [reflexivity |]. split.
  - intros sid. rewrite Hg2, Hg1. reflexivity.
  - intros sid. rewrite Hk2, Hk1. unfold reaction_species.
    rewrite in_app_iff. simpl. tauto.
Qed.

Lemma read_equation_Return cmodel (bids : gset string) r reaction w reaction' w' :
  read_equation cmodel bids r reaction w = (Return reaction', w') ->
  cobra.rxn_metabolites reaction = [] ->
  cobra.rxn_id reaction' = cobra.rxn_id reaction
  /\ cobra.rxn_gene_reaction_rule reaction' = cobra.rxn_gene_reaction_rule reaction
  /\ (forall sid c,
         In (sid, c) (cobra.rxn_metabolites reaction') <->
         In sid (reaction_species r) /\ (sid ∉ bids)
         /\ has_metabolite cmodel sid /\ c = spec_net_coefficient r sid)
  /\ (forall sid, In sid (reaction_species r) -> sid ∈ bids ->
                  In (boundary_warning sid (cobra.rxn_id reaction)) (warnings w'))
  /\ (forall sid, In sid (reaction_species r) -> sid ∉ bids ->
                  ~ has_metabolite cmodel sid ->
                  In (unknown_warning sid (cobra.rxn_id reaction)) (warnings w'))
  /\ incl (warnings w) (warnings w').
Proof.
  unfold read_equation. intros H Hnew.
  apply bind_Return in H. destruct H as (d1 & w1 & H1 & H).
  apply bind_Return in H. destruct H as (d2 & w2 & H2 & H).
  apply bind_Return in H. destruct H as (os & w3 & H3 & H).
  apply ret_Return in H. destruct H as [<- <-].
  destruct (net_coefficient_after r _ _ _ _ _ _ H1 H2 eq_refl) as (-> & Hnet & Hkeys).
  apply metabolites_loop in H3.
  destruct H3 as (Hin & Hout & Hnd & Hb & Hu & Hincl).
  assert (Hnd' : List.NoDup (PyDict.keys os)) by (apply Hnd; constructor).
  destruct (reaction_add_metabolites_new reaction os Hnew Hnd') as (Hm & Hid & Hrule).
  split; [exact Hid |]. split; [exact Hrule |].
  split; [| split; [| split]].
  - intros sid c. rewrite Hm. split.
    + intros Hios. apply (In_get os sid c Hnd') in Hios.
      destruct (in_dec string_dec sid (reaction_species r)) as [Hs|Hs].
      * destruct (decide (sid ∈ bids)) as [Hbd|Hbd].
        -- rewrite Hout in Hios; [discriminate Hios | tauto].
        -- destruct (has_metabolite_dec cmodel sid) as [Hk|Hk].
           ++ rewrite (Hin sid (proj2 (Hkeys sid) Hs) Hbd Hk) in Hios.
              inversion Hios. rewrite Hnet. tauto.
           ++ rewrite Hout in Hios; [discriminate Hios | tauto].
      * rewrite Hout in Hios; [discriminate Hios |].
        intros (Hk & _). apply Hs. apply Hkeys. exact Hk.
    + intros (Hs & Hbd & Hk & ->). apply get_Some_In.
      rewrite (Hin sid (proj2 (Hkeys sid) Hs) Hbd Hk), Hnet. reflexivity.
  - intros sid Hs Hbd. apply Hb; [apply Hkeys; exact Hs | exact Hbd].
  - intros sid Hs Hbd Hk. apply Hu; [apply Hkeys; exact Hs | exact Hbd | exact Hk].
  - exact Hincl.
Qed.

(** *** One reaction *)

(** When the bounds are read, both flux bounds name a constant parameter
    with a value, and the reaction has these two values for bounds. *)
Lemma read_bounds_Return model r reaction w reaction' w' :
  read_bounds model r reaction w = (Return reaction', w') ->
  exists f lb_id ub_id p_lb p_ub v_lb v_ub,
    r_fbc r = Some f
    /\ rp_lowerFluxBound f = Some lb_id
    /\ rp_upperFluxBound f = Some ub_id
    /\ getParameter model lb_id = Some p_lb
    /\ getParameter model ub_id = Some p_ub
    /\ p_constant p_lb = true /\ p_value p_lb = Some v_lb
    /\ p_constant p_ub = true /\ p_value p_ub = Some v_ub
    /\ reaction' = rxn_set_upper_bound (rxn_set_lower_bound reaction v_lb) v_ub
    /\ w' = w.
Proof.
  unfold read_bounds. destruct (r_fbc r) as [f|]; [| discriminate].
  intros H.
  apply bind_Return in H. destruct H as (lb_id & w1 & H1 & H).
  apply _check_required_Return in H1. destruct H1 as [Hlb ->].
  apply bind_Return in H. destruct H as (ub_id & w1 & H1 & H).
  apply _check_required_Return in H1. destruct H1 as [Hub ->].
  apply bind_Return in H. destruct H as (p_lb & w1 & H1 & H).
  apply deref_Return in H1. destruct H1 as [Hplb ->].
  apply bind_Return in H. destruct H as (reaction1 & w1 & H1 & H).
  destruct (p_constant p_lb) eqn:Ecl; [| discriminate H1].
  destruct (p_value p_lb) as [v_lb|] eqn:Evl; [| discriminate H1].
  apply ret_Return in H1. destruct H1 as [<- <-].
  apply bind_Return in H. destruct H as (p_ub & w1 & H1 & H).
  apply deref_Return in H1. destruct H1 as [Hpub ->].
  destruct (p_constant p_ub) eqn:Ecu; [| discriminate H].
  destruct (p_value p_ub) as [v_ub|] eqn:Evu; [| discriminate H].
  apply ret_Return in H. destruct H as [<- <-].
  exists f, lb_id, ub_id, p_lb, p_ub, v_lb, v_ub.
  repeat split; assumption.
Qed.

(** What one iteration of the loop over the reactions appends. *)
Lemma read_reaction_Return model cmodel (bids : gset string) r reactions w
    reactions' w' :
  read_reaction model cmodel bids r reactions w = (Return reactions', w') ->
  exists reaction,
    reactions' = (reactions ++ [reaction])%list
    /\ sb_id (r_base r) = Some (cobra.rxn_id reaction)
    /\ cobra.rxn_gene_reaction_rule reaction = ""
    /\ (forall sid c,
           In (sid, c) (cobra.rxn_metabolites reaction) <->
           In sid (reaction_species r) /\ (sid ∉ bids)
           /\ has_metabolite cmodel sid /\ c = spec_net_coefficient r sid)
    /\ (forall sid, In sid (reaction_species r) -> sid ∈ bids ->
                    In (boundary_warning sid (cobra.rxn_id reaction)) (warnings w'))
    /\ (forall sid, In sid (reaction_species r) -> sid ∉ bids ->
                    ~ has_metabolite cmodel sid ->
                    In (unknown_warning sid (cobra.rxn_id reaction)) (warnings w'))
    /\ incl (warnings w) (warnings w').
Proof.
  intros H.
  pose proof (extends_read_reaction _ _ _ _ _ _ _ _ H) as Hincl.
  unfold read_reaction in H.
  apply bind_Return in H. destruct H as (rid & w1 & H1 & H).
  apply _check_required_Return in H1. destruct H1 as [Hrid ->].
  apply bind_Return in H. destruct H as (annotation & w1 & _ & H).
  apply bind_Return in H. destruct H as (reaction1 & w2 & H1 & H).
  apply read_bounds_Return in H1.
  destruct H1 as (f & lb_id & ub_id & p_lb & p_ub & v_lb & v_ub & Hf & _ & _ & _
                  & _ & _ & _ & _ & _ & -> & ->).
  apply bind_Return in H. destruct H as (reaction2 & w3 & H1 & H).
  apply read_equation_Return in H1; [| reflexivity].
  destruct H1 as (Hid & Hrule & Hmets & Hb & Hu & _).
  apply bind_Return in H. destruct H as (f' & w4 & H1 & H).
  apply deref_Return in H1. destruct H1 as [_ ->].
  apply ret_Return in H. destruct H as [<- <-].
  simpl in Hid, Hrule.
  exists (read_gpr f' reaction2).
  split; [reflexivity |].
  assert (Hgid : cobra.rxn_id (read_gpr f' reaction2) = rid).
  { unfold read_gpr. simpl. exact Hid. }
  rewrite Hgid.
  split; [exact Hrid |]. split; [reflexivity |].
  split; [exact Hmets |].
  split; [| split; [| exact Hincl]].
  - exact Hb.
  - exact Hu.
Qed.

(** The loop over the reactions: every reaction it appends comes from a
    reaction of the document. *)
Lemma reactions_loop model cmodel (bids : gset string) (rs : list Reaction) :
  forall reactions w reactions' w',
    for_each rs (read_reaction model cmodel bids) reactions w
    = (Return reactions', w') ->
    exists new,
      reactions' = (reactions ++ new)%list
      /\ incl (warnings w) (warnings w')
      /\ forall reaction, In reaction new ->
           cobra.rxn_gene_reaction_rule reaction = ""
           /\ exists r,
                In r rs
                /\ sb_id (r_base r) = Some (cobra.rxn_id reaction)
                /\ (forall sid c,
                       In (sid, c) (cobra.rxn_metabolites reaction) <->
                       In sid (reaction_species r) /\ (sid ∉ bids)
                       /\ has_metabolite cmodel sid
                       /\ c = spec_net_coefficient r sid)
                /\ (forall sid, In sid (reaction_species r) -> sid ∈ bids ->
                       In (boundary_warning sid (cobra.rxn_id reaction))
                          (warnings w'))
                /\ (forall sid, In sid (reaction_species r) -> sid ∉ bids ->
                       ~ has_metabolite cmodel sid ->
                       In (unknown_warning sid (cobra.rxn_id reaction))
                          (warnings w')).
Proof.
  induction rs as [|r rs IH]; intros reactions w reactions' w' H; simpl in H.
  - apply ret_Return in H. destruct H as [<- <-].
    exists []. rewrite app_nil_r.
    split; [reflexivity |]. split; [apply incl_refl | intros ? []].
  - apply bind_Return in H. destruct H as (reactions1 & w1 & Hstep & Hrest).
    apply read_reaction_Return in Hstep.
    destruct Hstep as (reaction & -> & Hid & Hrule & Hmets & Hb & Hu & Hincl1).
    destruct (IH _ _ _ _ Hrest) as (new & -> & Hincl & Hnew).
    exists (reaction :: new). rewrite <- app_assoc.
    split; [reflexivity |].
    split; [eapply incl_tran; eassumption |].
    intros reaction' [<-|Hin].
    + split; [exact Hrule |]. exists r.
      split; [left; reflexivity |]. split; [exact Hid |].
      split; [exact Hmets |]. split.
      * intros sid Hs Hbd. apply Hincl. exact (Hb sid Hs Hbd).
      * intros sid Hs Hbd Hk. apply Hincl. exact (Hu sid Hs Hbd Hk).
    + destruct (Hnew reaction' Hin) as (Hrule' & r' & Hr' & Hrest').
      split; [exact Hrule' |]. exists r'. split; [right; exact Hr' | exact Hrest'].
Qed.

(** *** The species and the genes *)

Lemma has_metabolite_add cm met sid :
  has_metabolite (cobra.add_metabolites cm [met]) sid <->
  has_metabolite cm sid \/ cobra.met_id met = sid.
Proof.
  unfold cobra.add_metabolites, has_metabolite. simpl.
  destruct (existsb (fun y => String.eqb (cobra.met_id y) (cobra.met_id met))
              (cobra.mdl_metabolites cm)) eqn:E.
  - split.
    + intros H. left. exact H.
    + intros [H|H]; [exact H |].
      apply existsb_exists in E. destruct E as (y & Hy & Ey).
      apply String.eqb_eq in Ey. exists y. split; [exact Hy | congruence].
  - simpl. split.
    + intros (x & Hx & Hid). apply in_app_or in Hx.
      destruct Hx as [Hx|[<-|[]]].
      * left. exists x. split; assumption.
      * right. exact Hid.
    + intros [(x & Hx & Hid)|Hid].
      * exists x. split; [apply in_or_app; left; exact Hx | exact Hid].
      * exists met. split; [apply in_or_app; right; left; reflexivity | exact Hid].
Qed.

Lemma add_metabolites_reactions cm met :
  cobra.mdl_reactions (cobra.add_metabolites cm [met]) = cobra.mdl_reactions cm.
Proof.
  unfold cobra.add_metabolites. simpl.
  destruct (existsb _ _); reflexivity.
Qed.

Lemma read_species_Return s cm (bs : gset string) w cm' (bs' : gset string) w' :
  read_species s (cm, bs) w = (Return (cm', bs'), w') ->
  exists sid met,
    sb_id (s_base s) = Some sid
    /\ cobra.met_id met = sid
    /\ cm' = cobra.add_metabolites cm [met]
    /\ bs' = (if s_boundaryCondition s then {[ sid ]} ∪ bs else bs).
Proof.
  unfold read_species. intros H.
  apply bind_Return in H. destruct H as (sid & w1 & H1 & H).
  apply _check_required_Return in H1. destruct H1 as [Hsid ->].
  apply bind_Return in H. destruct H as (annotation & w1 & _ & H).
  apply ret_Return in H. destruct H as [H _].
  exists sid. eexists. split; [exact Hsid |].
  split; [| split; [symmetry; exact (f_equal fst H)
                   | symmetry; exact (f_equal snd H)]].
  reflexivity.
Qed.

Lemma species_loop (ss : list Species) :
  forall cm (bs : gset string) w cm' (bs' : gset string) w',
    for_each ss read_species (cm, bs) w = (Return (cm', bs'), w') ->
    (forall sid,
        has_metabolite cm' sid <->
        has_metabolite cm sid
        \/ existsb (fun s => bool_decide (sb_id (s_base s) = Some sid)) ss = true)
    /\ (forall sid,
           sid ∈ bs' <->
           sid ∈ bs
           \/ existsb (fun s => bool_decide (sb_id (s_base s) = Some sid)
                                && s_boundaryCondition s) ss = true)
    /\ cobra.mdl_reactions cm' = cobra.mdl_reactions cm.
Proof.
  induction ss as [|s ss IH]; intros cm bs w cm' bs' w' H; simpl in H.
  - apply ret_Return in H. destruct H as [H _]. injection H as <- <-.
    simpl. split; [| split; [| reflexivity]]; intros sid;
      (split; [intros H; left; exact H | intros [H|H]; [exact H | discriminate]]).
  - apply bind_Return in H. destruct H as ([cm1 bs1] & w1 & Hstep & Hrest).
    apply read_species_Return in Hstep.
    destruct Hstep as (sid0 & met & Hsid & Hmet & -> & ->).
    destruct (IH _ _ _ _ _ _ Hrest) as (Hmets & Hbs & Hrs).
    split; [| split].
    + intros sid. rewrite Hmets, has_metabolite_add. simpl.
      rewrite orb_true_iff, bool_decide_eq_true, Hsid, Hmet.
      split; [intros [[H|H]|H] | intros [H|[H|H]]]; try tauto.
      * right. left. congruence.
      * left. right. congruence.
    + intros sid. rewrite Hbs. simpl.
      rewrite orb_true_iff, andb_true_iff, bool_decide_eq_true, Hsid.
      destruct (s_boundaryCondition s).
      * rewrite elem_of_union, elem_of_singleton.
        split; [intros [[H|H]|H] | intros [H|[[H _]|H]]]; try tauto.
        -- right. left. split; [congruence | reflexivity].
        -- left. left. congruence.
      * split; [intros [H|H] | intros [H|[[_ H]|H]]]; try tauto. discriminate.
    + rewrite Hrs. apply add_metabolites_reactions.
Qed.

Lemma read_gene_product_Return gp cm w cm' w' :
  read_gene_product gp cm w = (Return cm', w') ->
  cobra.mdl_metabolites cm' = cobra.mdl_metabolites cm
  /\ cobra.mdl_reactions cm' = cobra.mdl_reactions cm.
Proof.
  unfold read_gene_product. intros H.
  apply bind_Return in H. destruct H as (name & w1 & _ & H).
  apply bind_Return in H. destruct H as (annotation & w2 & _ & H).
  unfold cobra.genes_append in H.
  destruct (existsb _ _); [discriminate H |].
  apply ret_Return in H. destruct H as [<- _]. split; reflexivity.
Qed.

Lemma genes_loop (gps : list GeneProduct) cm w cm' w' :
  for_each gps read_gene_product cm w = (Return cm', w') ->
  cobra.mdl_metabolites cm' = cobra.mdl_metabolites cm
  /\ cobra.mdl_reactions cm' = cobra.mdl_reactions cm.
Proof.
  intros H.
  apply (for_each_invariant
           (fun c _ => cobra.mdl_metabolites c = cobra.mdl_metabolites cm
                       /\ cobra.mdl_reactions c = cobra.mdl_reactions cm)
           read_gene_product gps) with (s := cm) (w := w) (w' := w').
  - intros gp c u c' u' _ [Hm Hr] Hstep.
    apply read_gene_product_Return in Hstep. destruct Hstep as [Hm' Hr'].
    split; congruence.
  - split; reflexivity.
  - exact H.
Qed.

(** *** The whole model *)

Lemma add_reactions_Return cm reactions w cm' w' :
  try_except (cobra.add_reactions cm reactions) is_ValueError
    (fun e => warn (str_exn e) ;;; ret cm) w = (Return cm', w') ->
  cobra.mdl_metabolites cm' = cobra.mdl_metabolites cm
  /\ (forall reaction, In reaction (cobra.mdl_reactions cm') ->
        In reaction (cobra.mdl_reactions cm) \/ In reaction reactions)
  /\ incl (warnings w) (warnings w').
Proof.
  unfold try_except, cobra.add_reactions.
  destruct (cobra.distinct_ids (map cobra.rxn_id reactions)).
  - intros H. apply ret_Return in H. destruct H as [<- <-]. simpl.
    split; [reflexivity |]. split; [| apply incl_refl].
    intros reaction Hin. apply in_app_or in Hin.
    destruct Hin as [Hin|Hin]; [left; exact Hin |].
    right. apply filter_In in Hin. tauto.
  - simpl. intros H. inversion H; subst. simpl.
    split; [reflexivity |]. split; [tauto |].
    apply incl_appl, incl_refl.
Qed.

Lemma read_objective_Return fbc cm w cm' w' :
  read_objective fbc cm w = (Return cm', w') ->
  cobra.mdl_metabolites cm' = cobra.mdl_metabolites cm
  /\ cobra.mdl_reactions cm' = cobra.mdl_reactions cm
  /\ incl (warnings w) (warnings w').
Proof.
  intros H. pose proof (extends_read_objective _ _ _ _ _ H) as Hincl.
  unfold read_objective in H.
  destruct (mp_listOfObjectives fbc) as [obj_list|].
  - apply bind_Return in H. destruct H as (obj & w1 & _ & H).
    apply bind_Return in H. destruct H as (dir & w2 & _ & H).
    apply bind_Return in H. destruct H as (coefficients & w3 & _ & H).
    apply ret_Return in H. destruct H as [<- _].
    repeat split. exact Hincl.
  - apply bind_Return in H. destruct H as (u & w1 & _ & H).
    apply ret_Return in H. destruct H as [<- _].
    repeat split. exact Hincl.
Qed.

Lemma stoichiometry_ok_incl model r reaction ws ws' :
  stoichiometry_ok model r reaction ws -> incl ws ws' ->
  stoichiometry_ok model r reaction ws'.
Proof.
  intros (Hid & Hmets & Hb & Hu) Hincl.
  split; [exact Hid |]. split; [exact Hmets |]. split.
  - intros sid Hs Hbd. apply Hincl. exact (Hb sid Hs Hbd).
  - intros sid Hs Hbd Hk. apply Hincl. exact (Hu sid Hs Hbd Hk).
Qed.

Lemma is_species_false_iff (b : bool) (P : Prop) : (P <-> b = true) -> (~ P <-> b = false).
Proof. destruct b; intuition discriminate. Qed.

(** What [read_model] returns: the metabolites are the declared species,
    and each reaction comes from a reaction of the document, with an empty
    rule and the stoichiometry of [stoichiometry_ok]. *)
Lemma read_model_Return doc w fbc cmodel w' :
  read_model doc w = (Return (fbc, cmodel), w') ->
  exists model,
    d_model doc = Some model
    /\ m_fbc model = Some fbc
    /\ incl (warnings w) (warnings w')
    /\ (forall sid, has_metabolite cmodel sid <-> is_species model sid = true)
    /\ forall reaction, In reaction (cobra.mdl_reactions cmodel) ->
         cobra.rxn_gene_reaction_rule reaction = ""
         /\ exists r, In r (m_reactions model)
                      /\ stoichiometry_ok model r reaction (warnings w').
Proof.
  unfold read_model. intros H.
  apply bind_Return in H. destruct H as (model & w0 & H0 & H).
  apply deref_Return in H0. destruct H0 as [Hmodel ->].
  apply bind_Return in H. destruct H as (u & w1 & Hw1 & H).
  assert (Hi1 : incl (warnings w) (warnings w1)).
  { destruct (m_fbc model) as [f|].
    - destruct (mp_strict f).
      + apply ret_Return in Hw1. destruct Hw1 as [_ <-]. apply incl_refl.
      + exact (extends_warn _ _ _ _ Hw1).
    - exact (extends_warn _ _ _ _ Hw1). }
  apply bind_Return in H. destruct H as ([cm1 bids] & w2 & Hsp & H).
  assert (Hi2 : incl (warnings w1) (warnings w2)).
  { refine (extends_for_each read_species _ _ _ _ _ _ Hsp).
    intros s [c b]. unfold read_species.
    extends_tac;
      first [apply extends__check_required | apply extends_annotate_cobra_from_sbase]. }
  apply species_loop in Hsp. destruct Hsp as (Hmets & Hbids & Hrs1).
  apply bind_Return in H. destruct H as (f & w3 & Hf & H).
  apply deref_Return in Hf. destruct Hf as [Hfbc ->].
  apply bind_Return in H. destruct H as (cm2 & w3 & Hg & H).
  assert (Hi3 : incl (warnings w2) (warnings w3)).
  { refine (extends_for_each read_gene_product _ _ _ _ _ _ Hg).
    intros gp c. unfold read_gene_product, cobra.genes_append.
    extends_tac; apply extends_annotate_cobra_from_sbase. }
  apply genes_loop in Hg. destruct Hg as (Hm2 & Hr2).
  apply bind_Return in H. destruct H as (reactions & w4 & Hloop & H).
  apply reactions_loop in Hloop. destruct Hloop as (new & Hnew & Hi4 & Hreactions).
  simpl in Hnew. subst reactions.
  apply bind_Return in H. destruct H as (cm3 & w5 & Hadd & H).
  apply add_reactions_Return in Hadd. destruct Hadd as (Hm3 & Hr3 & Hi5).
  apply ret_Return in H. destruct H as [H <-]. injection H as <- <-.
  simpl fst in *. simpl snd in *.
  assert (Hknown : forall sid, has_metabolite cm2 sid <-> is_species model sid = true).
  { intros sid. unfold has_metabolite. rewrite Hm2.
    change (has_metabolite cm1 sid <-> is_species model sid = true).
    rewrite Hmets. unfold is_species. split; [intros [(x & [] & _)|H]; exact H | tauto]. }
  assert (Hbound : forall sid, sid ∈ bids <-> is_boundary model sid = true).
  { intros sid. rewrite Hbids. unfold is_boundary.
    split; [intros [H|H]; [| exact H] | tauto].
    exfalso. exact (not_elem_of_empty sid H). }
  exists model. split; [exact Hmodel |]. split; [exact Hfbc |].
  split; [eauto using incl_tran |].
  split.
  { intros sid. unfold has_metabolite. rewrite Hm3. apply Hknown. }
  intros reaction Hin. apply Hr3 in Hin.
  destruct Hin as [Hin|Hin].
  { rewrite Hr2, Hrs1 in Hin. destruct Hin. }
  destruct (Hreactions reaction Hin) as (Hrule & r & Hr & Hid & Hm & Hb & Hu).
  split; [exact Hrule |]. exists r. split; [exact Hr |].
  apply (stoichiometry_ok_incl model r reaction (warnings w4)); [| exact Hi5].
  split; [exact Hid |]. split; [| split].
  - intros sid c. rewrite Hm, Hknown.
    rewrite (is_species_false_iff _ _ (Hbound sid)). tauto.
  - intros sid Hs Hbd. apply Hb; [exact Hs | apply Hbound; exact Hbd].
  - intros sid Hs Hbd Hk. apply Hu; [exact Hs | |].
    + apply (is_species_false_iff _ _ (Hbound sid)). exact Hbd.
    + apply (is_species_false_iff _ _ (Hknown sid)). exact Hk.
Qed.

(** ** Reading: what [_sbml_to_model] returns *)

Lemma _sbml_to_model_Return doc w cmodel w' :
  _sbml_to_model doc w = (Return cmodel, w') ->
  exists fbc cmodel1 w1,
    read_model doc w = (Return (fbc, cmodel1), w1)
    /\ read_objective fbc cmodel1 w1 = (Return cmodel, w').
Proof.
  unfold _sbml_to_model. intros H.
  apply bind_Return in H. destruct H as ([fbc cmodel1] & w1 & H1 & H2).
  exists fbc, cmodel1, w1. split; assumption.
Qed.

(** C5.  In a model that [_sbml_to_model] returns, every reaction comes
    from a reaction of the document and has for stoichiometry exactly the
    species of that reaction that are declared and do not have
    [boundaryCondition] true, each a metabolite of the model and each with
    its net coefficient (from 0, minus its stoichiometry as a reactant,
    plus its stoichiometry as a product); a boundary species and an
    undeclared species of the reaction are not in the stoichiometry, and a
    warning has been emitted for each. *)
Theorem sbml_to_model_stoichiometry (doc : SBMLDocument) (w : world)
    (cmodel : cobra.Model) (w' : world) :
  _sbml_to_model doc w = (Return cmodel, w') ->
  exists model,
    d_model doc = Some model
    /\ forall reaction, In reaction (cobra.mdl_reactions cmodel) ->
         (forall sid c, In (sid, c) (cobra.rxn_metabolites reaction) ->
                        has_metabolite cmodel sid
                        /\ is_boundary model sid = false)
         /\ exists r, In r (m_reactions model)
                      /\ stoichiometry_ok model r reaction (warnings w').
Proof.
  intros H. apply _sbml_to_model_Return in H.
  destruct H as (fbc & cmodel1 & w1 & Hmodel & Hobj).
  apply read_model_Return in Hmodel.
  destruct Hmodel as (model & Hdoc & _ & _ & Hknown & Hreactions).
  apply read_objective_Return in Hobj. destruct Hobj as (Hm & Hr & Hincl).
  exists model. split; [exact Hdoc |].
  intros reaction Hin. rewrite Hr in Hin.
  destruct (Hreactions reaction Hin) as (_ & r & Hrin & Hok).
  split.
  - intros sid c Hc. destruct Hok as (_ & Hmets & _).
    apply Hmets in Hc. destruct Hc as (_ & Hb & Hs & _).
    split; [| exact Hb]. unfold has_metabolite. rewrite Hm. apply Hknown. exact Hs.
  - exists r. split; [exact Hrin |].
    exact (stoichiometry_ok_incl _ _ _ _ _ Hok Hincl).
Qed.

(** The sample document: the reaction R1 consumes A (1), X (1, boundary)
    and Q (2, undeclared) and produces B (2) and A (3). *)
Lemma sbml_to_model_stoichiometry_witness :
  exists cmodel w',
    run (_sbml_to_model Samples.doc_R1) = (Return cmodel, w')
    /\ map cobra.rxn_metabolites (cobra.mdl_reactions cmodel)
       = [[("A", 2%float); ("B", 2%float)]]
    /\ warnings w'
       = [ boundary_warning "X" "R1"; unknown_warning "Q" "R1" ]
    /\ exists model,
         d_model Samples.doc_R1 = Some model
         /\ forall reaction, In reaction (cobra.mdl_reactions cmodel) ->
              (forall sid c, In (sid, c) (cobra.rxn_metabolites reaction) ->
                             has_metabolite cmodel sid
                             /\ is_boundary model sid = false)
              /\ exists r, In r (m_reactions model)
                           /\ stoichiometry_ok model r reaction (warnings w').
Proof.
  eexists. eexists.
  split; [vm_compute; reflexivity |].
  split; [vm_compute; reflexivity |].
  split; [vm_compute; reflexivity |].
  apply (sbml_to_model_stoichiometry Samples.doc_R1 world0).
  vm_compute. reflexivity.
Defined.

(** C3.  In a model that [_sbml_to_model] returns, the gene reaction rule
    of every reaction is the empty string, whatever gene product
    association the reaction of the document has. *)
Theorem sbml_to_model_gene_reaction_rule_empty (doc : SBMLDocument) (w : world)
    (cmodel : cobra.Model) (w' : world) :
  _sbml_to_model doc w = (Return cmodel, w') ->
  forall reaction, In reaction (cobra.mdl_reactions cmodel) ->
    cobra.rxn_gene_reaction_rule reaction = "".
Proof.
  intros H. apply _sbml_to_model_Return in H.
  destruct H as (fbc & cmodel1 & w1 & Hmodel & Hobj).
  apply read_model_Return in Hmodel.
  destruct Hmodel as (model & _ & _ & _ & _ & Hreactions).
  apply read_objective_Return in Hobj. destruct Hobj as (_ & Hr & _).
  intros reaction Hin. rewrite Hr in Hin.
  exact (proj1 (Hreactions reaction Hin)).
Qed.

(** The sample document: R1 is ruled by the AND of g1 and g2, and the
    reaction read has an empty rule. *)
Lemma sbml_to_model_gene_reaction_rule_witness :
  (r_fbc Samples.R1 ≫= rp_geneProductAssociation) ≫= gpa_association
  = Some (FbcAnd [GeneProductRef "g1"; GeneProductRef "g2"])
  /\ exists cmodel w',
       run (_sbml_to_model Samples.doc_R1) = (Return cmodel, w')
       /\ map cobra.rxn_id (cobra.mdl_reactions cmodel) = ["R1"]
       /\ forall reaction, In reaction (cobra.mdl_reactions cmodel) ->
            cobra.rxn_gene_reaction_rule reaction = "".
Proof.
  split; [reflexivity |].
  eexists. eexists.
  split; [vm_compute; reflexivity |].
  split; [vm_compute; reflexivity |].
  eapply (sbml_to_model_gene_reaction_rule_empty Samples.doc_R1 world0).
  vm_compute. reflexivity.
Defined.

(** A lower flux bound that names no parameter makes [read_bounds] raise
    [AttributeError]: [getParameter] gives [None], whose attribute
    [constant] is read. *)
Lemma read_bounds_unresolved model r reaction f lb_id ub_id w :
  r_fbc r = Some f ->
  rp_lowerFluxBound f = Some lb_id ->
  rp_upperFluxBound f = Some ub_id ->
  getParameter model lb_id = None ->
  read_bounds model r reaction w
  = (Raise (AttributeError "'NoneType' object has no attribute 'constant'"), w).
Proof.
  intros Hf Hlb Hub Hp. unfold read_bounds. rewrite Hf, Hlb, Hub.
  unfold _check_required, bind, ret. rewrite Hp. reflexivity.
Qed.

(** A reaction without fbc plugin makes [read_bounds] raise
    [CobraSBMLError]. *)
Lemma read_bounds_no_plugin model r reaction w :
  r_fbc r = None ->
  read_bounds model r reaction w
  = (Raise (CobraSBMLError
              ("No flux bounds on reaction '" ++ sb_str (r_base r) ++ "'")), w).
Proof. intros Hf. unfold read_bounds. rewrite Hf. reflexivity. Qed.

(** A flux bound whose parameter is not constant or has no value makes
    [read_bounds] raise [CobraSBMLError]. *)
Lemma read_bounds_not_constant model r reaction f lb_id ub_id p_lb w :
  r_fbc r = Some f ->
  rp_lowerFluxBound f = Some lb_id ->
  rp_upperFluxBound f = Some ub_id ->
  getParameter model lb_id = Some p_lb ->
  p_constant p_lb = false \/ p_value p_lb = None ->
  exists msg, read_bounds model r reaction w = (Raise (CobraSBMLError msg), w).
Proof.
  intros Hf Hlb Hub Hp Hbad. unfold read_bounds. rewrite Hf, Hlb, Hub.
  unfold _check_required, bind, ret. rewrite Hp. simpl.
  destruct Hbad as [Hc|Hv].
  - rewrite Hc. eexists. reflexivity.
  - rewrite Hv. destruct (p_constant p_lb); eexists; reflexivity.
Qed.

(** C4.  On the sample document whose reaction has a lower flux bound that
    names no parameter, [_sbml_to_model] raises [AttributeError], not
    [CobraSBMLError]. *)
Theorem sbml_to_model_unresolved_bound :
  run (_sbml_to_model Samples.doc_unresolved_bound)
  = (Raise (AttributeError "'NoneType' object has no attribute 'constant'"),
     world0).
Proof. vm_compute. reflexivity. Qed.

(** *** The objective *)

Lemma find_append {A} (f : A -> bool) (l1 l2 : list A) :
  find f (l1 ++ l2)
  = match find f l1 with
    | Some x => Some x
    | None => find f l2
    end.
Proof.
  induction l1 as [|x l1 IH]; simpl; [reflexivity |].
  destruct (f x); [reflexivity | exact IH].
Qed.

Lemma existsb_find {A} (f : A -> bool) (l : list A) :
  existsb f l = match find f l with Some _ => true | None => false end.
Proof.
  induction l as [|x l IH]; simpl; [reflexivity |].
  destruct (f x); [reflexivity | exact IH].
Qed.

Lemma spec_objective_coefficient_cons fo fos rid :
  spec_objective_coefficient (fo :: fos) rid
  = match spec_objective_coefficient fos rid with
    | Some c => Some c
    | None =>
        if String.eqb (fo_reaction fo) rid then Some (fo_coefficient fo) else None
    end.
Proof.
  unfold spec_objective_coefficient. simpl rev. rewrite find_append.
  destruct (find _ (rev fos)); simpl; [reflexivity |].
  destruct (String.eqb (fo_reaction fo) rid); reflexivity.
Qed.

(** One flux objective: its coefficient is stored under its reaction when
    the model has the reaction, and [CobraSBMLError] is raised otherwise. *)
Lemma read_flux_objective_cases cmodel fo coefficients w :
  (has_reaction cmodel (fo_reaction fo) = true
   /\ read_flux_objective cmodel fo coefficients w
      = (Return (PyDict.set coefficients (fo_reaction fo) (fo_coefficient fo)), w))
  \/ (has_reaction cmodel (fo_reaction fo) = false
      /\ read_flux_objective cmodel fo coefficients w
         = (Raise (CobraSBMLError
                     ("Objective reaction '" ++ fo_reaction fo ++ "' not found")), w)).
Proof.
  unfold has_reaction, read_flux_objective, cobra.reactions_get_by_id.
  rewrite existsb_find.
  destruct (find (fun x => String.eqb (cobra.rxn_id x) (fo_reaction fo))
              (cobra.mdl_reactions cmodel)) as [x|] eqn:E.
  - left. split; [reflexivity |].
    apply find_some in E. destruct E as [_ E]. apply String.eqb_eq in E.
    unfold bind, try_except, number, ret. simpl. rewrite E. reflexivity.
  - right. split; reflexivity.
Qed.

Lemma flux_objectives_loop cmodel (fos : list FluxObjective) :
  forall coefficients w,
    (forallb (fun fo => has_reaction cmodel (fo_reaction fo)) fos = true ->
     exists coefficients',
       for_each fos (read_flux_objective cmodel) coefficients w
       = (Return coefficients', w)
       /\ forall rid,
            PyDict.get coefficients' rid
            = match spec_objective_coefficient fos rid with
              | Some c => Some c
              | None => PyDict.get coefficients rid
              end)
    /\ (forallb (fun fo => has_reaction cmodel (fo_reaction fo)) fos = false ->
        exists rid,
          In rid (map fo_reaction fos)
          /\ has_reaction cmodel rid = false
          /\ for_each fos (read_flux_objective cmodel) coefficients w
             = (Raise (CobraSBMLError
                         ("Objective reaction '" ++ rid ++ "' not found")), w)).
Proof.
  induction fos as [|fo fos IH]; intros coefficients w.
  - split; [| discriminate]. intros _. exists coefficients.
    split; reflexivity.
  - cbn [forallb for_each map].
    destruct (read_flux_objective_cases cmodel fo coefficients w)
      as [(Hk & Hrun)|(Hk & Hrun)]; rewrite Hk.
    + rewrite (bind_Return_eq _ _ _ _ _ Hrun). simpl andb.
      destruct (IH (PyDict.set coefficients (fo_reaction fo) (fo_coefficient fo)) w)
        as [IHt IHf].
      split.
      * intros Hall. destruct (IHt Hall) as (c' & Hc' & Hget).
        exists c'. split; [exact Hc' |].
        intros rid. rewrite Hget, spec_objective_coefficient_cons, get_set.
        destruct (spec_objective_coefficient fos rid); [reflexivity |].
        destruct (String.eqb (fo_reaction fo) rid); reflexivity.
      * intros Hall. destruct (IHf Hall) as (rid & Hin & Hno & Hraise).
        exists rid. split; [right; exact Hin |]. split; assumption.
    + split; [discriminate |]. intros _.
      exists (fo_reaction fo). split; [left; reflexivity |].
      split; [exact Hk |].
      exact (bind_Raise_eq _ _ _ _ _ Hrun).
Qed.

(** C6.  Let [read_model] have built the model, and let the active
    objective exist with type [maximize] or [minimize].  If one of its flux
    objectives names a reaction the model does not have,
    [_sbml_to_model] raises [CobraSBMLError] for such a reaction.
    Otherwise it returns the model with, for objective, the coefficient of
    each reaction named by a flux objective (the last one when a reaction is
    named twice), and with the direction [max] for [maximize] and [min] for
    [minimize]; metabolites and reactions are those of the model built. *)
Theorem sbml_to_model_objective (doc : SBMLDocument) (w : world)
    (fbc : FbcModelPlugin) (cmodel : cobra.Model) (w1 : world)
    (obj_list : ListOfObjectives) (obj : Objective) :
  read_model doc w = (Return (fbc, cmodel), w1) ->
  mp_listOfObjectives fbc = Some obj_list ->
  getObjective obj_list (lo_activeObjective obj_list) = Some obj ->
  o_type obj = "maximize" \/ o_type obj = "minimize" ->
  (forallb (fun fo => has_reaction cmodel (fo_reaction fo))
     (o_fluxObjectives obj) = false ->
   exists rid,
     In rid (map fo_reaction (o_fluxObjectives obj))
     /\ has_reaction cmodel rid = false
     /\ _sbml_to_model doc w
        = (Raise (CobraSBMLError
                    ("Objective reaction '" ++ rid ++ "' not found")), w1))
  /\ (forallb (fun fo => has_reaction cmodel (fo_reaction fo))
        (o_fluxObjectives obj) = true ->
      exists cmodel',
        _sbml_to_model doc w = (Return cmodel', w1)
        /\ (forall rid,
               PyDict.get (cobra.mdl_objective cmodel') rid
               = spec_objective_coefficient (o_fluxObjectives obj) rid)
        /\ cobra.mdl_direction cmodel'
           = (if String.eqb (o_type obj) "maximize" then "max" else "min")
        /\ cobra.mdl_reactions cmodel' = cobra.mdl_reactions cmodel
        /\ cobra.mdl_metabolites cmodel' = cobra.mdl_metabolites cmodel).
Proof.
  intros Hmodel Hlist Hobj Htype.
  assert (Hdir : dict_getitem LONG_SHORT_DIRECTION (o_type obj) w1
                 = (Return (if String.eqb (o_type obj) "maximize"
                            then "max" else "min"), w1)).
  { destruct Htype as [-> | ->]; reflexivity. }
  destruct (flux_objectives_loop cmodel (o_fluxObjectives obj) [] w1) as [Ht Hf].
  unfold _sbml_to_model. rewrite (bind_Return_eq _ _ _ _ _ Hmodel).
  cbn [fst snd]. unfold read_objective. rewrite Hlist, Hobj.
  split.
  - intros Hall. destruct (Hf Hall) as (rid & Hin & Hno & Hraise).
    exists rid. split; [exact Hin |]. split; [exact Hno |].
    unfold deref. unfold bind at 1. unfold ret at 1.
    rewrite (bind_Return_eq _ _ _ _ _ Hdir).
    exact (bind_Raise_eq _ _ _ _ _ Hraise).
  - intros Hall. destruct (Ht Hall) as (c' & Hc' & Hget).
    eexists. split.
    + unfold deref. unfold bind at 1. unfold ret at 1.
      rewrite (bind_Return_eq _ _ _ _ _ Hdir).
      rewrite (bind_Return_eq _ _ _ _ _ Hc'). reflexivity.
    + simpl. split; [| repeat split].
      intros rid. rewrite Hget.
      destruct (spec_objective_coefficient (o_fluxObjectives obj) rid); reflexivity.
Qed.

(** The sample document maximises R1; the variant that minimises the
    reaction R2, which the model does not have, is refused. *)
Lemma sbml_to_model_objective_witness :
  (exists cmodel' w1,
      run (_sbml_to_model Samples.doc_R1) = (Return cmodel', w1)
      /\ PyDict.get (cobra.mdl_objective cmodel') "R1" = Some 1%float
      /\ cobra.mdl_direction cmodel' = "max")
  /\ (exists w1,
         run (_sbml_to_model Samples.doc_unknown_objective)
         = (Raise (CobraSBMLError "Objective reaction 'R2' not found"), w1)).
Proof.
  split.
  - edestruct (sbml_to_model_objective Samples.doc_R1 world0) as [_ Hok].
    + vm_compute. reflexivity.
    + reflexivity.
    + reflexivity.
    + left. reflexivity.
    + destruct Hok as (cmodel' & Hrun & Hget & Hdir & _); [reflexivity |].
      exists cmodel'. eexists. split; [exact Hrun |].
      split; [rewrite Hget; reflexivity | exact Hdir].
  - edestruct (sbml_to_model_objective Samples.doc_unknown_objective world0)
      as [Hbad _].
    + vm_compute. reflexivity.
    + reflexivity.
    + reflexivity.
    + right. reflexivity.
    + destruct Hbad as (rid & Hin & _ & Hrun); [reflexivity |].
      destruct Hin as [<-|[]].
      eexists. exact Hrun.
Defined.

(** The conditions of C6 are needed.  On the sample document whose active
    objective has the empty string for type and names the reaction R2,
    [read_model] builds a model without R2, and [_sbml_to_model] raises
    [KeyError] for the type, not [CobraSBMLError]: the type is looked up
    before the flux objectives are. *)
Lemma sbml_to_model_objective_without_type :
  exists fbc cmodel w1,
    read_model MoreSamples.doc_objective_without_type world0
    = (Return (fbc, cmodel), w1)
    /\ has_reaction cmodel "R2" = false
    /\ run (_sbml_to_model MoreSamples.doc_objective_without_type)
       = (Raise (KeyError ""), w1).
Proof.
  do 3 eexists. split; [vm_compute; reflexivity |].
  split; vm_compute; reflexivity.
Qed.

(** * Further properties *)

(** ** The monad, whatever the outcome *)

Lemma bind_outcome {A B} (m : M A) (k : A -> M B) w o w' :
  bind m k w = (o, w') ->
  (exists a w1, m w = (Return a, w1) /\ k a w1 = (o, w'))
  \/ (exists e, m w = (Raise e, w') /\ o = Raise e).
Proof.
  unfold bind. destruct (m w) as [[a|e] w1]; intros H.
  - left. exists a, w1. split; [reflexivity | exact H].
  - right. exists e. inversion H; subst. split; reflexivity.
Qed.

Lemma extends_read_species s st : extends_warnings (read_species s st).
Proof.
  destruct st as [c b]. unfold read_species.
  extends_tac;
    first [apply extends__check_required | apply extends_annotate_cobra_from_sbase].
Qed.

Lemma extends_read_gene_product gp cm : extends_warnings (read_gene_product gp cm).
Proof.
  unfold read_gene_product, cobra.genes_append.
  extends_tac; apply extends_annotate_cobra_from_sbase.
Qed.

Lemma extends_add_reactions cm reactions :
  extends_warnings
    (try_except (cobra.add_reactions cm reactions) is_ValueError
       (fun e => warn (str_exn e) ;;; ret cm)).
Proof. unfold cobra.add_reactions. extends_tac. Qed.

(** ** [_sbml_to_model]: the model and its fbc plugin *)

(** The statements of [read_model] after the two warnings of lines
    163-167. *)
Lemma read_model_unfold doc w :
  read_model doc w
  = (model <- deref (d_model doc) "getPlugin" ;;
     (match m_fbc model with
      | None => warn "Model does not contain FBC information."
      | Some f =>
          match mp_strict f with
          | None => warn ("Loading SBML model without fbc:strict="
                          ++ dquote ++ "true" ++ dquote)
          | Some _ => ret tt
          end
      end ;;;
      st <- for_each (m_species model) read_species
              (mdl_with_name_compartments
                 (cobra.new_Model (sb_id (m_base model)))
                 (sb_name (m_base model))
                 (fold_left
                    (fun d c => <[sb_id (c_base c) := sb_name (c_base c)]> d)
                    (m_compartments model) ∅), ∅) ;;
      fbc <- deref (m_fbc model) "getListOfGeneProducts" ;;
      cmodel <- for_each (mp_geneProducts fbc) read_gene_product (fst st) ;;
      reactions <-
        for_each (m_reactions model) (read_reaction model cmodel (snd st)) [] ;;
      cmodel <- try_except (cobra.add_reactions cmodel reactions) is_ValueError
                  (fun e => warn (str_exn e) ;;; ret cmodel) ;;
      ret (fbc, cmodel))) w.
Proof. reflexivity. Qed.

(** X1.  A document whose model has no fbc plugin is never read:
    [_sbml_to_model] warns that the model has no FBC information and then
    raises, at the latest when it asks the missing plugin for the gene
    products. *)
Theorem sbml_to_model_without_fbc (doc : SBMLDocument) (model : Model) (w : world) :
  d_model doc = Some model ->
  m_fbc model = None ->
  exists e w',
    _sbml_to_model doc w = (Raise e, w')
    /\ In "Model does not contain FBC information." (warnings w')
    /\ incl (warnings w) (warnings w').
Proof.
  intros Hmodel Hfbc.
  set (w1 := {| warnings := (warnings w ++ ["Model does not contain FBC information."])%list;
                files := files w |}).
  assert (Hw1 : In "Model does not contain FBC information." (warnings w1)).
  { simpl. apply in_or_app. right. left. reflexivity. }
  assert (Hww1 : incl (warnings w) (warnings w1)).
  { simpl. apply incl_appl, incl_refl. }
  assert (Hread : exists e w',
             read_model doc w = (Raise e, w')
             /\ incl (warnings w1) (warnings w')).
  { rewrite read_model_unfold.
    assert (H0 : deref (d_model doc) "getPlugin" w = (Return model, w))
      by (rewrite Hmodel; reflexivity).
    rewrite (bind_Return_eq _ _ _ _ _ H0). cbv beta. rewrite Hfbc.
    assert (H1 : warn "Model does not contain FBC information." w = (Return tt, w1))
      by reflexivity.
    rewrite (bind_Return_eq _ _ _ _ _ H1). cbv beta.
    match goal with
    | |- context [for_each ?l read_species ?s] =>
        destruct (for_each l read_species s w1) as [[st|e] w2] eqn:Hsp
    end;
      pose proof (extends_for_each read_species _ extends_read_species _ _ _ _ Hsp) as Hi.
    - rewrite (bind_Return_eq _ _ _ _ _ Hsp). cbv beta.
      eexists. exists w2. split; [reflexivity | exact Hi].
    - rewrite (bind_Raise_eq _ _ _ _ _ Hsp).
      exists e, w2. split; [reflexivity | exact Hi]. }
  destruct Hread as (e & w' & Hread & Hi).
  exists e, w'. split; [| split].
  - unfold _sbml_to_model. exact (bind_Raise_eq _ _ _ _ _ Hread).
  - apply Hi. exact Hw1.
  - eapply incl_tran; eassumption.
Qed.

Lemma sbml_to_model_without_fbc_witness :
  exists e w',
    _sbml_to_model MoreSamples.doc_without_fbc world0 = (Raise e, w')
    /\ In "Model does not contain FBC information." (warnings w')
    /\ incl (warnings world0) (warnings w').
Proof.
  apply (sbml_to_model_without_fbc MoreSamples.doc_without_fbc
           {| m_base := sbase_of_id "m"; m_compartments := [];
              m_species := [Samples.species "A" false];
              m_parameters := []; m_reactions := []; m_fbc := None |} world0);
    reflexivity.
Defined.

(** ** [_sbml_to_model]: what a returned model holds *)

(** The four loops of [read_model], when it returns. *)
Lemma read_model_inv doc w fbc cmodel w' :
  read_model doc w = (Return (fbc, cmodel), w') ->
  exists model w1 cm1 (bids : gset string) w2 cm2 w3 reactions w4,
    d_model doc = Some model
    /\ m_fbc model = Some fbc
    /\ for_each (m_species model) read_species (initial_model model, ∅) w1
       = (Return (cm1, bids), w2)
    /\ for_each (mp_geneProducts fbc) read_gene_product cm1 w2 = (Return cm2, w3)
    /\ for_each (m_reactions model) (read_reaction model cm2 bids) [] w3
       = (Return reactions, w4)
    /\ try_except (cobra.add_reactions cm2 reactions) is_ValueError
         (fun e => warn (str_exn e) ;;; ret cm2) w4 = (Return cmodel, w').
Proof.
  rewrite read_model_unfold. intros H.
  apply bind_Return in H. destruct H as (model & w0 & H0 & H).
  apply deref_Return in H0. destruct H0 as [Hmodel ->].
  apply bind_Return in H. destruct H as (u & w1 & _ & H).
  apply bind_Return in H. destruct H as ([cm1 bids] & w2 & Hsp & H).
  apply bind_Return in H. destruct H as (f & w3 & Hf & H).
  apply deref_Return in Hf. destruct Hf as [Hfbc ->].
  apply bind_Return in H. destruct H as (cm2 & w3 & Hg & H).
  apply bind_Return in H. destruct H as (reactions & w4 & Hloop & H).
  apply bind_Return in H. destruct H as (cm3 & w5 & Hadd & H).
  apply ret_Return in H. destruct H as [H <-]. injection H as <- <-.
  exists model, w1, cm1, bids, w2, cm2, w3, reactions, w4.
  repeat split; assumption.
Qed.

(** *** Id, name and compartments *)

Lemma same_header_refl a : same_header a a.
Proof. repeat split. Qed.

Lemma same_header_trans a b c : same_header a b -> same_header b c -> same_header a c.
Proof. intros (? & ? & ?) (? & ? & ?). repeat split; congruence. Qed.

Lemma add_metabolites_header cm met : same_header (cobra.add_metabolites cm [met]) cm.
Proof.
  unfold cobra.add_metabolites. simpl.
  destruct (existsb _ _); repeat split.
Qed.

Lemma species_loop_header (ss : list Species) :
  forall cm (bs : gset string) w cm' (bs' : gset string) w',
    for_each ss read_species (cm, bs) w = (Return (cm', bs'), w') ->
    same_header cm' cm.
Proof.
  induction ss as [|s ss IH]; intros cm bs w cm' bs' w' H; simpl in H.
  - apply ret_Return in H. destruct H as [H _]. injection H as <- <-.
    apply same_header_refl.
  - apply bind_Return in H. destruct H as ([cm1 bs1] & w1 & Hstep & Hrest).
    apply read_species_Return in Hstep.
    destruct Hstep as (sid0 & met & _ & _ & -> & ->).
    eapply same_header_trans; [exact (IH _ _ _ _ _ _ Hrest) |].
    apply add_metabolites_header.
Qed.

Lemma genes_loop_header (gps : list GeneProduct) cm w cm' w' :
  for_each gps read_gene_product cm w = (Return cm', w') -> same_header cm' cm.
Proof.
  intros H.
  apply (for_each_invariant (fun c _ => same_header c cm) read_gene_product gps)
    with (s := cm) (w := w) (w' := w').
  - intros gp c u c' u' _ Hc Hstep. unfold read_gene_product in Hstep.
    apply bind_Return in Hstep. destruct Hstep as (name & w1 & _ & Hstep).
    apply bind_Return in Hstep. destruct Hstep as (annotation & w2 & _ & Hstep).
    unfold cobra.genes_append in Hstep.
    destruct (existsb _ _); [discriminate Hstep |].
    apply ret_Return in Hstep. destruct Hstep as [<- _].
    eapply same_header_trans; [| exact Hc]. repeat split.
  - apply same_header_refl.
  - exact H.
Qed.

Lemma add_reactions_header cm reactions w cm' w' :
  try_except (cobra.add_reactions cm reactions) is_ValueError
    (fun e => warn (str_exn e) ;;; ret cm) w = (Return cm', w') ->
  same_header cm' cm.
Proof.
  unfold try_except, cobra.add_reactions.
  destruct (cobra.distinct_ids (map cobra.rxn_id reactions)).
  - intros H. apply ret_Return in H. destruct H as [<- _]. repeat split.
  - simpl. intros H. inversion H; subst. apply same_header_refl.
Qed.

Lemma read_objective_header fbc cm w cm' w' :
  read_objective fbc cm w = (Return cm', w') -> same_header cm' cm.
Proof.
  unfold read_objective. intros H.
  destruct (mp_listOfObjectives fbc) as [obj_list|].
  - apply bind_Return in H. destruct H as (obj & w1 & _ & H).
    apply bind_Return in H. destruct H as (dir & w2 & _ & H).
    apply bind_Return in H. destruct H as (coefficients & w3 & _ & H).
    apply ret_Return in H. destruct H as [<- _]. repeat split.
  - apply bind_Return in H. destruct H as (u & w1 & _ & H).
    apply ret_Return in H. destruct H as [<- _]. apply same_header_refl.
Qed.

Lemma compartments_lookup (cs : list Compartment) :
  forall (d : gmap (option string) (option string)) cid,
    fold_left (fun d c => <[sb_id (c_base c) := sb_name (c_base c)]> d) cs d !! cid
    = match spec_compartment_name cs cid with
      | Some n => Some n
      | None => d !! cid
      end.
Proof.
  unfold spec_compartment_name.
  induction cs as [|c cs IH]; intros d cid; simpl.
  - reflexivity.
  - rewrite IH, find_append.
    destruct (find _ (rev cs)) as [c'|]; simpl; [reflexivity |].
    destruct (bool_decide (sb_id (c_base c) = cid)) eqn:E; simpl.
    + apply bool_decide_eq_true in E. rewrite <- E. apply lookup_insert_eq.
    + apply bool_decide_eq_false in E. apply lookup_insert_ne. exact E.
Qed.

(** X2.  A model that [_sbml_to_model] returns has the id and the name of
    the SBML model, and maps the id of each compartment to its name; when
    several compartments have the same id, the name of the last one is
    kept. *)
Theorem sbml_to_model_header (doc : SBMLDocument) (w : world)
    (cmodel : cobra.Model) (w' : world) :
  _sbml_to_model doc w = (Return cmodel, w') ->
  exists model,
    d_model doc = Some model
    /\ cobra.mdl_id cmodel = sb_id (m_base model)
    /\ cobra.mdl_name cmodel = sb_name (m_base model)
    /\ forall cid,
         cobra.mdl_compartments cmodel !! cid
         = spec_compartment_name (m_compartments model) cid.
Proof.
  intros H. apply _sbml_to_model_Return in H.
  destruct H as (fbc & cmodel1 & w1 & Hmodel & Hobj).
  apply read_model_inv in Hmodel.
  destruct Hmodel as (model & u1 & cm1 & bids & u2 & cm2 & u3 & reactions & u4
                      & Hdoc & _ & Hsp & Hg & _ & Hadd).
  assert (Hh : same_header cmodel (initial_model model)).
  { eapply same_header_trans; [exact (read_objective_header _ _ _ _ _ Hobj) |].
    eapply same_header_trans; [exact (add_reactions_header _ _ _ _ _ Hadd) |].
    eapply same_header_trans; [exact (genes_loop_header _ _ _ _ _ Hg) |].
    exact (species_loop_header _ _ _ _ _ _ _ Hsp). }
  destruct Hh as (Hid & Hname & Hcomp).
  exists model. split; [exact Hdoc |].
  split; [exact Hid |]. split; [exact Hname |].
  intros cid. rewrite Hcomp. unfold initial_model. simpl.
  rewrite compartments_lookup, lookup_empty.
  destruct (spec_compartment_name (m_compartments model) cid); reflexivity.
Qed.

Lemma sbml_to_model_header_witness :
  exists cmodel w',
    run (_sbml_to_model (MoreSamples.doc_with None)) = (Return cmodel, w')
    /\ cobra.mdl_id cmodel = Some "m"
    /\ cobra.mdl_compartments cmodel !! Some "c" = Some (Some "cell").
Proof.
  eexists. eexists. split; [vm_compute; reflexivity |].
  edestruct (sbml_to_model_header (MoreSamples.doc_with None) world0)
    as (model & Hdoc & Hid & _ & Hcomp).
  - vm_compute. reflexivity.
  - injection Hdoc as <-. split; [exact Hid |].
    rewrite Hcomp. reflexivity.
Defined.

(** *** The metabolites *)

Lemma add_metabolites_In cm met x :
  In x (cobra.mdl_metabolites (cobra.add_metabolites cm [met])) ->
  In x (cobra.mdl_metabolites cm) \/ x = met.
Proof.
  unfold cobra.add_metabolites. simpl.
  destruct (existsb _ _); simpl.
  - intros H. left. exact H.
  - intros H. apply in_app_or in H. destruct H as [H|[<-|[]]]; [left | right]; auto.
Qed.

Lemma read_species_metabolite s cm (bs : gset string) w cm' (bs' : gset string) w' :
  read_species s (cm, bs) w = (Return (cm', bs'), w') ->
  exists met,
    metabolite_of_species s met /\ cm' = cobra.add_metabolites cm [met].
Proof.
  unfold read_species. intros H.
  apply bind_Return in H. destruct H as (sid & w1 & H1 & H).
  apply _check_required_Return in H1. destruct H1 as [Hsid ->].
  apply bind_Return in H. destruct H as (annotation & w1 & Hann & H).
  apply ret_Return in H. destruct H as [H _].
  eexists. split; [| symmetry; exact (f_equal fst H)].
  unfold metabolite_of_species. simpl.
  split; [exact Hsid |]. split; [reflexivity |]. split; [reflexivity |].
  split; [destruct (s_fbc s); reflexivity |].
  split; [destruct (s_fbc s); reflexivity |].
  exists w, w1. exact Hann.
Qed.

Lemma species_loop_metabolites (ss : list Species) :
  forall cm (bs : gset string) w cm' (bs' : gset string) w',
    for_each ss read_species (cm, bs) w = (Return (cm', bs'), w') ->
    forall met, In met (cobra.mdl_metabolites cm') ->
      In met (cobra.mdl_metabolites cm)
      \/ exists s, In s ss /\ metabolite_of_species s met.
Proof.
  induction ss as [|s ss IH]; intros cm bs w cm' bs' w' H met Hin; simpl in H.
  - apply ret_Return in H. destruct H as [H _]. injection H as <- <-.
    left. exact Hin.
  - apply bind_Return in H. destruct H as ([cm1 bs1] & w1 & Hstep & Hrest).
    apply read_species_metabolite in Hstep. destruct Hstep as (m & Hm & ->).
    destruct (IH _ _ _ _ _ _ Hrest met Hin) as [Hin'|(s' & Hs' & Hm')].
    + apply add_metabolites_In in Hin'. destruct Hin' as [Hin'| ->].
      * left. exact Hin'.
      * right. exists s. split; [left; reflexivity | exact Hm].
    + right. exists s'. split; [right; exact Hs' | exact Hm'].
Qed.

(** X3.  The metabolites of a model that [_sbml_to_model] returns are the
    declared species: an id is the id of a metabolite exactly when a species
    of the document has it, with [boundaryCondition] true or not, and every
    metabolite has the name and the compartment of a species with its id,
    the charge and the formula of the fbc plugin of that species (none when
    the species has no plugin), and the annotation
    [annotate_cobra_from_sbase] gives for that species. *)
Theorem sbml_to_model_metabolites (doc : SBMLDocument) (w : world)
    (cmodel : cobra.Model) (w' : world) :
  _sbml_to_model doc w = (Return cmodel, w') ->
  exists model,
    d_model doc = Some model
    /\ (forall sid, has_metabolite cmodel sid <-> is_species model sid = true)
    /\ (forall sid, is_boundary model sid = true -> has_metabolite cmodel sid)
    /\ forall met, In met (cobra.mdl_metabolites cmodel) ->
         exists s, In s (m_species model) /\ metabolite_of_species s met.
Proof.
  intros H. apply _sbml_to_model_Return in H.
  destruct H as (fbc & cmodel1 & w1 & Hmodel & Hobj).
  pose proof (read_model_Return _ _ _ _ _ Hmodel)
    as (model' & Hdoc' & _ & _ & Hknown & _).
  apply read_model_inv in Hmodel.
  destruct Hmodel as (model & u1 & cm1 & bids & u2 & cm2 & u3 & reactions & u4
                      & Hdoc & _ & Hsp & Hg & _ & Hadd).
  assert (model' = model) by congruence. subst model'.
  apply read_objective_Return in Hobj. destruct Hobj as (Hm & _ & _).
  apply add_reactions_Return in Hadd. destruct Hadd as (Hm3 & _ & _).
  apply genes_loop in Hg. destruct Hg as (Hm2 & _).
  exists model. split; [exact Hdoc |].
  assert (Hiff : forall sid, has_metabolite cmodel sid <-> is_species model sid = true).
  { intros sid. unfold has_metabolite. rewrite Hm. apply Hknown. }
  split; [exact Hiff |]. split.
  - intros sid Hb. apply Hiff. unfold is_boundary in Hb. unfold is_species.
    apply existsb_exists in Hb. destruct Hb as (s & Hs & Hb).
    apply andb_true_iff in Hb. destruct Hb as [Hb _].
    apply existsb_exists. exists s. split; assumption.
  - intros met Hin. rewrite Hm, Hm3, Hm2 in Hin.
    destruct (species_loop_metabolites _ _ _ _ _ _ _ Hsp met Hin) as [[]|Hs].
    exact Hs.
Qed.

Lemma sbml_to_model_metabolites_witness :
  exists cmodel w',
    run (_sbml_to_model (MoreSamples.doc_with None)) = (Return cmodel, w')
    /\ map cobra.met_id (cobra.mdl_metabolites cmodel) = ["A"; "X"]
    /\ map cobra.met_charge (cobra.mdl_metabolites cmodel) = [Some (-2)%Z; None]
    /\ exists model,
         d_model (MoreSamples.doc_with None) = Some model
         /\ (forall sid, has_metabolite cmodel sid <-> is_species model sid = true)
         /\ (forall sid, is_boundary model sid = true -> has_metabolite cmodel sid)
         /\ forall met, In met (cobra.mdl_metabolites cmodel) ->
              exists s, In s (m_species model) /\ metabolite_of_species s met.
Proof.
  eexists. eexists. split; [vm_compute; reflexivity |].
  split; [vm_compute; reflexivity |].
  split; [vm_compute; reflexivity |].
  eapply (sbml_to_model_metabolites (MoreSamples.doc_with None) world0).
  vm_compute. reflexivity.
Defined.

(** *** The reactions *)

Lemma read_equation_fields cmodel (bids : gset string) r reaction w reaction' w' :
  read_equation cmodel bids r reaction w = (Return reaction', w') ->
  cobra.rxn_id reaction' = cobra.rxn_id reaction
  /\ cobra.rxn_name reaction' = cobra.rxn_name reaction
  /\ cobra.rxn_lower_bound reaction' = cobra.rxn_lower_bound reaction
  /\ cobra.rxn_upper_bound reaction' = cobra.rxn_upper_bound reaction.
Proof.
  unfold read_equation. intros H.
  apply bind_Return in H. destruct H as (d1 & w1 & _ & H).
  apply bind_Return in H. destruct H as (d2 & w2 & _ & H).
  apply bind_Return in H. destruct H as (os & w3 & _ & H).
  apply ret_Return in H. destruct H as [<- _]. repeat split.
Qed.

Lemma read_reaction_attributes model cmodel (bids : gset string) r reactions w
    reactions' w' :
  read_reaction model cmodel bids r reactions w = (Return reactions', w') ->
  exists reaction,
    reactions' = (reactions ++ [reaction])%list
    /\ reaction_of_sbml model r reaction.
Proof.
  unfold read_reaction. intros H.
  apply bind_Return in H. destruct H as (rid & w1 & H1 & H).
  apply _check_required_Return in H1. destruct H1 as [Hrid ->].
  apply bind_Return in H. destruct H as (annotation & w1 & _ & H).
  apply bind_Return in H. destruct H as (reaction1 & w2 & H1 & H).
  apply read_bounds_Return in H1.
  destruct H1 as (f & lb_id & ub_id & p_lb & p_ub & v_lb & v_ub & Hf & Hlb & Hub
                  & Hplb & Hpub & Hcl & Hvl & Hcu & Hvu & -> & ->).
  apply bind_Return in H. destruct H as (reaction2 & w3 & H1 & H).
  apply read_equation_fields in H1. destruct H1 as (Hid & Hname & Hl & Hu).
  apply bind_Return in H. destruct H as (f' & w4 & _ & H).
  apply ret_Return in H. destruct H as [<- _].
  simpl in Hid, Hname, Hl, Hu.
  exists (read_gpr f' reaction2). split; [reflexivity |].
  unfold reaction_of_sbml, read_gpr. simpl.
  rewrite Hid, Hname, Hl, Hu.
  split; [exact Hrid |]. split; [reflexivity |].
  exists f, lb_id, ub_id, p_lb, p_ub. repeat split; assumption.
Qed.

Lemma reactions_loop_attributes model cmodel (bids : gset string) (rs : list Reaction) :
  forall reactions w reactions' w',
    for_each rs (read_reaction model cmodel bids) reactions w
    = (Return reactions', w') ->
    exists new,
      reactions' = (reactions ++ new)%list
      /\ Forall2 (reaction_of_sbml model) rs new.
Proof.
  induction rs as [|r rs IH]; intros reactions w reactions' w' H; simpl in H.
  - apply ret_Return in H. destruct H as [<- _].
    exists []. rewrite app_nil_r. split; [reflexivity | constructor].
  - apply bind_Return in H. destruct H as (reactions1 & w1 & Hstep & Hrest).
    apply read_reaction_attributes in Hstep.
    destruct Hstep as (reaction & -> & Hr).
    destruct (IH _ _ _ _ Hrest) as (new & -> & Hnew).
    exists (reaction :: new). rewrite <- app_assoc.
    split; [reflexivity | constructor; assumption].
Qed.

(** X4.  Every reaction of a model that [_sbml_to_model] returns is read
    from a reaction of the document: it has its id and its name, and its
    lower and upper bounds are the values of the parameters of the model
    that the two flux bounds of that reaction name, both constant. *)
Theorem sbml_to_model_reactions (doc : SBMLDocument) (w : world)
    (cmodel : cobra.Model) (w' : world) :
  _sbml_to_model doc w = (Return cmodel, w') ->
  exists model,
    d_model doc = Some model
    /\ forall reaction, In reaction (cobra.mdl_reactions cmodel) ->
         exists r, In r (m_reactions model) /\ reaction_of_sbml model r reaction.
Proof.
  intros H. apply _sbml_to_model_Return in H.
  destruct H as (fbc & cmodel1 & w1 & Hmodel & Hobj).
  apply read_model_inv in Hmodel.
  destruct Hmodel as (model & u1 & cm1 & bids & u2 & cm2 & u3 & reactions & u4
                      & Hdoc & _ & Hsp & Hg & Hloop & Hadd).
  apply read_objective_Return in Hobj. destruct Hobj as (_ & Hr & _).
  apply add_reactions_Return in Hadd. destruct Hadd as (_ & Hr3 & _).
  apply genes_loop in Hg. destruct Hg as (_ & Hr2).
  apply species_loop in Hsp. destruct Hsp as (_ & _ & Hr1).
  apply reactions_loop_attributes in Hloop. destruct Hloop as (new & Hnew & Hall).
  simpl in Hnew. subst reactions.
  exists model. split; [exact Hdoc |].
  intros reaction Hin. rewrite Hr in Hin. apply Hr3 in Hin.
  destruct Hin as [Hin|Hin].
  { rewrite Hr2, Hr1 in Hin. destruct Hin. }
  clear - Hall Hin. induction Hall as [|r x rs new Hrx Hall IH].
  - destruct Hin.
  - destruct Hin as [<-|Hin].
    + exists r. split; [left; reflexivity | exact Hrx].
    + destruct (IH Hin) as (r' & Hr' & Hx). exists r'.
      split; [right; exact Hr' | exact Hx].
Qed.

Lemma sbml_to_model_reactions_witness :
  exists cmodel w',
    run (_sbml_to_model (MoreSamples.doc_with None)) = (Return cmodel, w')
    /\ map (fun x => (cobra.rxn_id x, cobra.rxn_lower_bound x, cobra.rxn_upper_bound x))
         (cobra.mdl_reactions cmodel)
       = [("R1", (-5)%float, 7%float)]
    /\ exists model,
         d_model (MoreSamples.doc_with None) = Some model
         /\ forall reaction, In reaction (cobra.mdl_reactions cmodel) ->
              exists r, In r (m_reactions model)
                        /\ reaction_of_sbml model r reaction.
Proof.
  eexists. eexists. split; [vm_compute; reflexivity |].
  split; [vm_compute; reflexivity |].
  eapply (sbml_to_model_reactions (MoreSamples.doc_with None) world0).
  vm_compute. reflexivity.
Defined.

(** ** [_sbml_to_model]: the objective that is missing or ill-formed *)

(** X6.  The objective is refused before its flux objectives are looked
    at: when the active objective names no objective of the list,
    [_sbml_to_model] raises [AttributeError], and when the type of the
    active objective is not a key of [LONG_SHORT_DIRECTION] it raises
    [KeyError] with that type; in both cases whatever the flux objectives
    are, and with the warnings [read_model] ended with. *)
Theorem sbml_to_model_objective_refused (doc : SBMLDocument) (w : world)
    (fbc : FbcModelPlugin) (cmodel : cobra.Model) (w1 : world)
    (obj_list : ListOfObjectives) :
  read_model doc w = (Return (fbc, cmodel), w1) ->
  mp_listOfObjectives fbc = Some obj_list ->
  (getObjective obj_list (lo_activeObjective obj_list) = None ->
   _sbml_to_model doc w
   = (Raise (AttributeError "'NoneType' object has no attribute 'getType'"), w1))
  /\ (forall obj,
         getObjective obj_list (lo_activeObjective obj_list) = Some obj ->
         o_type obj <> "maximize" -> o_type obj <> "minimize" ->
         _sbml_to_model doc w = (Raise (KeyError (o_type obj)), w1)).
Proof.
  intros Hmodel Hlist. unfold _sbml_to_model.
  rewrite (bind_Return_eq _ _ _ _ _ Hmodel). cbn [fst snd].
  unfold read_objective. rewrite Hlist. split.
  - intros ->. reflexivity.
  - intros obj -> Hmax Hmin.
    unfold deref. unfold bind at 1. unfold ret at 1.
    apply bind_Raise_eq.
    assert (E1 : String.eqb "maximize" (o_type obj) = false).
    { apply String.eqb_neq. congruence. }
    assert (E2 : String.eqb "minimize" (o_type obj) = false).
    { apply String.eqb_neq. congruence. }
    unfold dict_getitem, LONG_SHORT_DIRECTION. cbn [PyDict.get].
    rewrite E1, E2. reflexivity.
Qed.

(** The sample model with an empty list of objectives, and with an
    objective without type that names an unknown reaction. *)
Lemma sbml_to_model_objective_refused_witness :
  run (_sbml_to_model
         (MoreSamples.doc_with
            (Some {| lo_activeObjective := ""; lo_objectives := [] |})))
  = (Raise (AttributeError "'NoneType' object has no attribute 'getType'"),
     {| warnings :=
          [ "Loading SBML model without fbc:strict=" ++ dquote ++ "true" ++ dquote;
            boundary_warning "X" "R1" ];
        files := [] |})
  /\ run (_sbml_to_model (MoreSamples.doc_with (Some (Samples.objective "" "R9"))))
     = (Raise (KeyError ""),
        {| warnings :=
             [ "Loading SBML model without fbc:strict=" ++ dquote ++ "true" ++ dquote;
               boundary_warning "X" "R1" ];
           files := [] |}).
Proof.
  split.
  - unfold run.
    edestruct (sbml_to_model_objective_refused
                 (MoreSamples.doc_with
                    (Some {| lo_activeObjective := ""; lo_objectives := [] |}))
                 world0) as [H _].
    + vm_compute. reflexivity.
    + reflexivity.
    + rewrite H; reflexivity.
  - unfold run.
    edestruct (sbml_to_model_objective_refused
                 (MoreSamples.doc_with (Some (Samples.objective "" "R9")))
                 world0) as [_ H].
    + vm_compute. reflexivity.
    + reflexivity.
    + rewrite (H _ eq_refl); [reflexivity | discriminate | discriminate].
Defined.

(** ** [write_sbml_model]: keywords *)

(** X7.  [write_sbml_model] called with a keyword other than [units]
    raises [TypeError], the signature of [_model_to_sbml] taking none, and
    writes no file. *)
Theorem write_sbml_model_unknown_keyword (cobra_model : cobra.Model)
    (filename : string) (kwargs : list (string * pyvalue)) (w : world) :
  (exists k v, In (k, v) kwargs /\ k <> "units") ->
  exists msg,
    write_sbml_model cobra_model filename kwargs w = (Raise (TypeError msg), w).
Proof.
  intros Hk. unfold write_sbml_model.
  assert (H : exists msg, bind_kwargs kwargs (VBool true) w = (Raise (TypeError msg), w)).
  { generalize (VBool true). induction kwargs as [|[k0 v0] rest IH]; intros units.
    - destruct Hk as (k & v & [] & _).
    - simpl. destruct (String.eqb k0 "units") eqn:E.
      + apply String.eqb_eq in E. subst k0. apply IH.
        destruct Hk as (k & v & [Hin|Hin] & Hne).
        * inversion Hin; subst. contradiction.
        * exists k, v. split; assumption.
      + destruct (String.eqb k0 "cobra_model"); eexists; reflexivity. }
  destruct H as (msg & H). exists msg.
  exact (bind_Raise_eq _ _ _ _ _ H).
Qed.

Lemma write_sbml_model_unknown_keyword_witness :
  exists msg,
    write_sbml_model Samples.model_one_reaction "model.xml"
      [("units", VBool false); ("use_fbc_package", VBool true)] world0
    = (Raise (TypeError msg), world0).
Proof.
  apply write_sbml_model_unknown_keyword.
  exists "use_fbc_package", (VBool true).
  split; [right; left; reflexivity | discriminate].
Defined.

(** ** [read_sbml_model]: the file object *)

(** X8.  A file object is never read: [os.path.exists] is asked first and
    raises [TypeError] on it, so [read_sbml_model] raises [CobraSBMLError]
    with the warnings and files as they were, whatever [read] and the
    libsbml readers would do. *)
Theorem read_sbml_model_file_object
    (path_exists : string -> M bool)
    (readSBMLFromFile : filename_arg -> M SBMLDocument)
    (readSBMLFromString : string -> M SBMLDocument)
    (read : M string) (w : world) :
  read_sbml_model path_exists readSBMLFromFile readSBMLFromString
    (ArgHandle read) w
  = (Raise (CobraSBMLError read_error_message), w).
Proof. reflexivity. Qed.

(** ** [annotate_cobra_from_sbase]: the provider [SBO] *)

Lemma annotate_uris_SBO (t : Z) (uris : list string) :
  forall (annotation : annotation_dict) w,
    annotation !! "SBO" = Some (cobra.AInt t) ->
    (forall p z, annotation !! p = Some (cobra.AInt z) -> p = "SBO") ->
    spec_identifiers "SBO" uris <> [] ->
    exists w',
      for_each uris annotate_uri annotation w
      = (Raise (AttributeError "'int' object has no attribute 'append'"), w').
Proof.
  induction uris as [|uri uris IH]; intros annotation w Hsbo Honly Hids.
  - contradiction Hids. reflexivity.
  - cbn [for_each]. rewrite spec_identifiers_cons in Hids.
    destruct (spec_uri_entry uri) as [[q i]|] eqn:Es.
    + destruct (String.eqb q "SBO") eqn:E.
      * apply String.eqb_eq in E. subst q. exists w.
        apply bind_Raise_eq.
        exact (annotate_uri_on_integer uri "SBO" i annotation t w Es Hsbo).
      * apply String.eqb_neq in E.
        assert (Hq : forall z, annotation !! q <> Some (cobra.AInt z)).
        { intros z Hz. apply E. exact (Honly q z Hz). }
        destruct (annotate_uri_stored uri q i annotation w Es Hq)
          as (v & _ & Hvint & Hrun & _).
        rewrite (bind_Return_eq _ _ _ _ _ Hrun).
        apply IH.
        -- rewrite lookup_insert_ne by exact E. exact Hsbo.
        -- intros p z. destruct (decide (q = p)) as [->|Hne].
           ++ rewrite lookup_insert_eq. intros [= ->].
              exfalso. exact (Hvint z eq_refl).
           ++ rewrite lookup_insert_ne by exact Hne. apply Honly.
        -- exact Hids.
    + rewrite (bind_Return_eq _ _ _ _ _ (annotate_uri_skipped uri annotation w Es)).
      apply IH; assumption.
Qed.

(** X9.  On an object without annotation, an element whose SBO term is
    set and one of whose resource URIs has the provider [SBO] makes
    [annotate_cobra_from_sbase] raise [AttributeError]: the value stored
    under ['SBO'] is the integer term, which has no [append]. *)
Theorem annotate_cobra_from_sbase_SBO_collision (sbase : SBase) (t : Z) (w : world) :
  sb_sboTerm sbase = Some t ->
  spec_identifiers "SBO" (sbase_uris sbase) <> [] ->
  exists w',
    annotate_cobra_from_sbase ∅ sbase w
    = (Raise (AttributeError "'int' object has no attribute 'append'"), w').
Proof.
  intros Ht Hids. unfold annotate_cobra_from_sbase. rewrite Ht.
  unfold sbase_uris in Hids.
  destruct (sb_cvterms sbase) as [cvterms|]; [| contradiction Hids; reflexivity].
  destruct (annotate_uris_SBO t (concat (map cv_resources cvterms))
              (<["SBO" := cobra.AInt t]> ∅) w) as (w' & Hrun).
  - apply lookup_insert_eq.
  - intros p z. destruct (decide ("SBO" = p)) as [<-|Hne]; [reflexivity |].
    rewrite lookup_insert_ne by exact Hne. rewrite lookup_empty. discriminate.
  - exact Hids.
  - exists w'. rewrite for_each_cvterms. exact Hrun.
Qed.

Lemma annotate_cobra_from_sbase_SBO_collision_witness :
  exists w',
    annotate_cobra_from_sbase ∅ MoreSamples.annotated_SBO world0
    = (Raise (AttributeError "'int' object has no attribute 'append'"), w').
Proof.
  apply (annotate_cobra_from_sbase_SBO_collision MoreSamples.annotated_SBO 247 world0).
  - reflexivity.
  - vm_compute. discriminate.
Defined.

(** ** [_sbml_to_model]: what a document must have to be read *)

Lemma reactions_loop_bounds model cmodel (bids : gset string) (rs : list Reaction) :
  forall reactions w reactions' w',
    for_each rs (read_reaction model cmodel bids) reactions w
    = (Return reactions', w') ->
    Forall (fun r => exists reaction, reaction_of_sbml model r reaction) rs.
Proof.
  induction rs as [|r rs IH]; intros reactions w reactions' w' H; simpl in H.
  - constructor.
  - apply bind_Return in H. destruct H as (reactions1 & w1 & Hstep & Hrest).
    constructor; [| exact (IH _ _ _ _ Hrest)].
    apply read_reaction_attributes in Hstep.
    destruct Hstep as (reaction & _ & Hr). exists reaction. exact Hr.
Qed.

(** X11.  [_sbml_to_model] returns a model only for a document whose model
    has the fbc plugin and in which every reaction has the fbc plugin with
    a lower and an upper flux bound that each name a constant parameter of
    the model; this holds of every reaction of the document, whether or not
    the model returned keeps it. *)
Theorem sbml_to_model_requires_bounds (doc : SBMLDocument) (w : world)
    (cmodel : cobra.Model) (w' : world) :
  _sbml_to_model doc w = (Return cmodel, w') ->
  exists model fbc,
    d_model doc = Some model
    /\ m_fbc model = Some fbc
    /\ Forall (fun r => exists reaction, reaction_of_sbml model r reaction)
         (m_reactions model).
Proof.
  intros H. apply _sbml_to_model_Return in H.
  destruct H as (fbc & cmodel1 & w1 & Hmodel & _).
  apply read_model_inv in Hmodel.
  destruct Hmodel as (model & u1 & cm1 & bids & u2 & cm2 & u3 & reactions & u4
                      & Hdoc & Hfbc & Hsp & _ & Hloop & _).
  exists model, fbc. split; [exact Hdoc |]. split; [exact Hfbc |].
  exact (reactions_loop_bounds _ _ _ _ _ _ _ _ Hloop).
Qed.

Lemma sbml_to_model_requires_bounds_witness :
  exists model fbc,
    d_model Samples.doc_R1 = Some model
    /\ m_fbc model = Some fbc
    /\ Forall (fun r => exists reaction, reaction_of_sbml model r reaction)
         (m_reactions model).
Proof.
  eapply (sbml_to_model_requires_bounds Samples.doc_R1 world0).
  vm_compute. reflexivity.
Defined.

(** ** [_sbml_to_model]: the genes and the objective of a returned model *)

Lemma add_metabolites_rest cm met :
  cobra.mdl_genes (cobra.add_metabolites cm [met]) = cobra.mdl_genes cm
  /\ cobra.mdl_objective (cobra.add_metabolites cm [met]) = cobra.mdl_objective cm.
Proof.
  unfold cobra.add_metabolites. simpl. destruct (existsb _ _); split; reflexivity.
Qed.

Lemma species_loop_rest (ss : list Species) :
  forall cm (bs : gset string) w cm' (bs' : gset string) w',
    for_each ss read_species (cm, bs) w = (Return (cm', bs'), w') ->
    cobra.mdl_genes cm' = cobra.mdl_genes cm
    /\ cobra.mdl_objective cm' = cobra.mdl_objective cm.
Proof.
  induction ss as [|s ss IH]; intros cm bs w cm' bs' w' H; simpl in H.
  - apply ret_Return in H. destruct H as [H _]. injection H as <- <-.
    split; reflexivity.
  - apply bind_Return in H. destruct H as ([cm1 bs1] & w1 & Hstep & Hrest).
    apply read_species_Return in Hstep.
    destruct Hstep as (sid0 & met & _ & _ & -> & ->).
    destruct (IH _ _ _ _ _ _ Hrest) as [Hg Ho].
    destruct (add_metabolites_rest cm met) as [Hg' Ho'].
    split; congruence.
Qed.

Lemma read_gene_product_gene gp cm w cm' w' :
  read_gene_product gp cm w = (Return cm', w') ->
  cobra.mdl_objective cm' = cobra.mdl_objective cm
  /\ exists gene,
       cobra.mdl_genes cm' = (cobra.mdl_genes cm ++ [gene])%list
       /\ gene_of_product gp gene.
Proof.
  unfold read_gene_product. intros H.
  apply bind_Return in H. destruct H as (name & w1 & Hname & H).
  apply bind_Return in H. destruct H as (annotation & w2 & Hann & H).
  unfold cobra.genes_append in H.
  destruct (existsb _ _); [discriminate H |].
  apply ret_Return in H. destruct H as [<- _]. simpl.
  split; [reflexivity |]. eexists. split; [reflexivity |].
  unfold gene_of_product. simpl. split; [reflexivity |]. split.
  - destruct (sb_name (gp_base gp)) as [n|]; [| discriminate Hname].
    apply ret_Return in Hname. destruct Hname as [<- _]. reflexivity.
  - exists w1, w2. exact Hann.
Qed.

Lemma genes_loop_genes (gps : list GeneProduct) :
  forall cm w cm' w',
    for_each gps read_gene_product cm w = (Return cm', w') ->
    cobra.mdl_objective cm' = cobra.mdl_objective cm
    /\ exists new,
         cobra.mdl_genes cm' = (cobra.mdl_genes cm ++ new)%list
         /\ Forall2 gene_of_product gps new.
Proof.
  induction gps as [|gp gps IH]; intros cm w cm' w' H; simpl in H.
  - apply ret_Return in H. destruct H as [<- _].
    split; [reflexivity |]. exists []. rewrite app_nil_r.
    split; [reflexivity | constructor].
  - apply bind_Return in H. destruct H as (cm1 & w1 & Hstep & Hrest).
    apply read_gene_product_gene in Hstep.
    destruct Hstep as (Ho1 & gene & Hg1 & Hgene).
    destruct (IH _ _ _ _ Hrest) as (Ho & new & Hg & Hnew).
    split; [congruence |].
    exists (gene :: new). rewrite Hg, Hg1, <- app_assoc.
    split; [reflexivity | constructor; assumption].
Qed.

Lemma add_reactions_rest cm reactions w cm' w' :
  try_except (cobra.add_reactions cm reactions) is_ValueError
    (fun e => warn (str_exn e) ;;; ret cm) w = (Return cm', w') ->
  cobra.mdl_genes cm' = cobra.mdl_genes cm
  /\ cobra.mdl_objective cm' = cobra.mdl_objective cm.
Proof.
  unfold try_except, cobra.add_reactions.
  destruct (cobra.distinct_ids (map cobra.rxn_id reactions)).
  - intros H. apply ret_Return in H. destruct H as [<- _]. split; reflexivity.
  - simpl. intros H. inversion H; subst. split; reflexivity.
Qed.

Lemma read_objective_genes fbc cm w cm' w' :
  read_objective fbc cm w = (Return cm', w') ->
  cobra.mdl_genes cm' = cobra.mdl_genes cm.
Proof.
  unfold read_objective. intros H.
  destruct (mp_listOfObjectives fbc) as [obj_list|].
  - apply bind_Return in H. destruct H as (obj & w1 & _ & H).
    apply bind_Return in H. destruct H as (dir & w2 & _ & H).
    apply bind_Return in H. destruct H as (coefficients & w3 & _ & H).
    apply ret_Return in H. destruct H as [<- _]. reflexivity.
  - apply bind_Return in H. destruct H as (u & w1 & _ & H).
    apply ret_Return in H. destruct H as [<- _]. reflexivity.
Qed.

(** X12.  The genes of a model that [_sbml_to_model] returns are the gene
    products of the fbc plugin, one gene for each and in the same order,
    each with the id, the name and the annotation of its gene product. *)
Theorem sbml_to_model_genes (doc : SBMLDocument) (w : world)
    (cmodel : cobra.Model) (w' : world) :
  _sbml_to_model doc w = (Return cmodel, w') ->
  exists model fbc,
    d_model doc = Some model
    /\ m_fbc model = Some fbc
    /\ Forall2 gene_of_product (mp_geneProducts fbc) (cobra.mdl_genes cmodel).
Proof.
  intros H. apply _sbml_to_model_Return in H.
  destruct H as (fbc & cmodel1 & w1 & Hmodel & Hobj).
  apply read_model_inv in Hmodel.
  destruct Hmodel as (model & u1 & cm1 & bids & u2 & cm2 & u3 & reactions & u4
                      & Hdoc & Hfbc & Hsp & Hg & _ & Hadd).
  apply read_objective_genes in Hobj.
  apply add_reactions_rest in Hadd. destruct Hadd as [Hg3 _].
  apply genes_loop_genes in Hg. destruct Hg as (_ & new & Hg2 & Hnew).
  apply species_loop_rest in Hsp. destruct Hsp as [Hg1 _].
  exists model, fbc. split; [exact Hdoc |]. split; [exact Hfbc |].
  rewrite Hobj, Hg3, Hg2, Hg1. simpl. exact Hnew.
Qed.

Lemma sbml_to_model_genes_witness :
  exists cmodel w',
    run (_sbml_to_model Samples.doc_R1) = (Return cmodel, w')
    /\ map cobra.gene_id (cobra.mdl_genes cmodel) = [Some "g1"; Some "g2"]
    /\ exists model fbc,
         d_model Samples.doc_R1 = Some model
         /\ m_fbc model = Some fbc
         /\ Forall2 gene_of_product (mp_geneProducts fbc) (cobra.mdl_genes cmodel).
Proof.
  eexists. eexists. split; [vm_compute; reflexivity |].
  split; [vm_compute; reflexivity |].
  eapply (sbml_to_model_genes Samples.doc_R1 world0).
  vm_compute. reflexivity.
Defined.



